(** * Panopticon (run.py): log-record formatting, file routing and writing

    A shallow embedding of [run.py] and the properties of its sanitizer,
    message-id encoding, record formatter, path router, append-only writer
    and event handlers.

    Conventions of the embedding.
    - A Python [str] is a [string] holding its UTF-8 bytes.  Every character
      the program inspects or inserts is ASCII, and no byte of a multi-byte
      UTF-8 sequence is below 0x80, so the byte-wise functions below act on
      the encoded text exactly as the Python ones act on the code points.
    - A Python [int] is a [Z]; [bytes] is a [list Z] of values below 256.
    - [None] is [None]; an exception is a constructor of [exn].
    - The file system is an explicit state threaded through the handlers. *)

From Stdlib Require Import ZArith Lia List Bool Ascii String.
From Stdlib Require DecimalString DecimalPos DecimalZ.
From stdpp Require Import base gmap strings.
Import ListNotations.

Local Open Scope Z_scope.

(** ** Text helpers *)

Module Text.

Definition chars (s : string) : list ascii := String.list_ascii_of_string s.

(** [c in s] for a one-character [c]. *)
Definition mem (c : ascii) (s : string) : Prop := In c (chars s).

Fixpoint filter (keep : ascii -> bool) (s : string) : string :=
  match s with
  | EmptyString => EmptyString
  | String c r => if keep c then String c (filter keep r) else filter keep r
  end.

Fixpoint all (p : ascii -> bool) (s : string) : bool :=
  match s with
  | EmptyString => true
  | String c r => p c && all p r
  end.

(** [''.join(map f s)]: every character replaced by a string. *)
Fixpoint expand (f : ascii -> string) (s : string) : string :=
  match s with
  | EmptyString => EmptyString
  | String c r => f c +:+ expand f r
  end.

(** [s.zfill(w)] for a string of digits. *)
Definition zfill (w : nat) (s : string) : string :=
  string_of_list_ascii (repeat "0"%char (w - String.length s)) +:+ s.

(** [str(n)] for an [int]. *)
Definition str (n : Z) : string :=
  DecimalString.NilZero.string_of_int (Z.to_int n).

End Text.

(** ** Regular-expression character classes, as used by [re.sub] *)

Inductive class_item : Type :=
  | CChar (c : ascii)
  | CRange (lo hi : ascii).

Definition item_matches (c : ascii) (it : class_item) : bool :=
  match it with
  | CChar d => Ascii.eqb c d
  | CRange lo hi =>
      (N_of_ascii lo <=? N_of_ascii c)%N && (N_of_ascii c <=? N_of_ascii hi)%N
  end.

Definition class_matches (cls : list class_item) (c : ascii) : bool :=
  existsb (item_matches c) cls.

(** [re.sub('[cls]', repl, s)]: the pattern matches exactly one character, so
    the scan replaces every matching character and copies the others. *)
Fixpoint re_sub_class (cls : list class_item) (repl s : string) : string :=
  match s with
  | EmptyString => EmptyString
  | String c r =>
      if class_matches cls c then repl +:+ re_sub_class cls repl r
      else String c (re_sub_class cls repl r)
  end.

(** The class of the pattern of line 49: slash, backslash, colon, star,
    question mark, double quote, the two angle brackets, the bar, and the
    range from \x00 to \x1f. *)
Definition filename_class : list class_item :=
  [ CChar "/"; CChar "\"; CChar ":"; CChar "*"; CChar "?"; CChar "034";
    CChar "<"; CChar ">"; CChar "|"; CRange "000" "031" ]%char.

(** [clean_filename] (run.py, line 48). *)
Definition clean_filename (s : string) : string :=
  re_sub_class filename_class EmptyString s.

(** The forbidden set in the specification's words: nine punctuation
    characters and the ASCII control characters 0x00-0x1F. *)
Definition forbidden_punctuation : list ascii :=
  [ "/"; "\"; ":"; "*"; "?"; "034"; "<"; ">"; "|" ]%char.

Definition is_control (c : ascii) : bool := (N_of_ascii c <=? 31)%N.

Definition forbidden (c : ascii) : bool :=
  existsb (Ascii.eqb c) forbidden_punctuation || is_control c.

(** ** Exceptions and results *)

(** The exception classes a call of this program can raise; the last three
    are the ones [channel.get_message] of the discord library raises when
    the message cannot be fetched. *)
Inductive exn : Type :=
  | TypeError
  | IndexError
  | OverflowError
  | FileNotFoundError
  | FileExistsError
  | NotADirectoryError
  | IsADirectoryError
  | AttributeError
  | NotFound
  | Forbidden
  | HTTPException.

Inductive result (A : Type) : Type :=
  | Ok (a : A)
  | Raise (e : exn).
Arguments Ok {A} a.
Arguments Raise {A} e.

#[global] Instance result_ret : MRet result := fun _ a => Ok a.
#[global] Instance result_bind : MBind result := fun _ _ k r =>
  match r with
  | Ok a => k a
  | Raise e => Raise e
  end.
#[global] Instance result_fmap : FMap result := fun _ _ f r =>
  match r with
  | Ok a => Ok (f a)
  | Raise e => Raise e
  end.

(** ** [str.format] and [str.replace] *)

Definition nl : string := String "010" EmptyString.

(** [tmpl.format( *args )] for a template whose fields are all the automatic
    field [{}]; a field without an argument left raises IndexError. *)
Fixpoint format (tmpl : string) (args : list string) : result string :=
  match tmpl with
  | EmptyString => Ok EmptyString
  | String c r =>
      match r with
      | String d r' =>
          if Ascii.eqb c "{" && Ascii.eqb d "}" then
            match args with
            | [] => Raise IndexError
            | a :: args' => String.append a <$> format r' args'
            end
          else String c <$> format r args
      | EmptyString => Ok (String c EmptyString)
      end
  end.

(** [s.replace(old, new)] for a non-empty [old]: a left-to-right scan over
    non-overlapping occurrences.  [skip] counts the characters of a matched
    occurrence still to be passed over. *)
Fixpoint replace_go (old new : string) (skip : nat) (s : string) : string :=
  match s with
  | EmptyString => EmptyString
  | String c r =>
      match skip with
      | S k => replace_go old new k r
      | O =>
          if String.prefix old s
          then new +:+ replace_go old new (String.length old - 1) r
          else String c (replace_go old new O r)
      end
  end.

Definition replace (old new s : string) : string := replace_go old new O s.

(** ** [int.to_bytes] and [base64.b64encode] *)

Fixpoint to_bytes_le (len : nat) (x : Z) : list Z :=
  match len with
  | O => []
  | S k => Z.land x 255 :: to_bytes_le k (Z.shiftr x 8)
  end.

(** [x.to_bytes(len, byteorder='little')]: unsigned, OverflowError when [x]
    is negative or does not fit. *)
Definition int_to_bytes (x : Z) (len : nat) : result (list Z) :=
  if (0 <=? x) && (x <? 2 ^ (8 * Z.of_nat len))
  then Ok (to_bytes_le len x)
  else Raise OverflowError.

Definition b64_alphabet : string :=
  "ABCDEFGHIJKLMNOPQRSTUVWXYZabcdefghijklmnopqrstuvwxyz0123456789+/".

Definition b64_pad : ascii := "="%char.

Definition b64_char (i : Z) : ascii :=
  match String.get (Z.to_nat i) b64_alphabet with
  | Some c => c
  | None => b64_pad
  end.

(** [base64.b64encode] (RFC 4648, standard alphabet, padded). *)
Fixpoint b64encode (bs : list Z) : string :=
  match bs with
  | [] => EmptyString
  | [a] =>
      String (b64_char (Z.shiftr a 2))
     (String (b64_char (Z.shiftl (Z.land a 3) 4))
     (String b64_pad (String b64_pad EmptyString)))
  | [a; b] =>
      String (b64_char (Z.shiftr a 2))
     (String (b64_char (Z.lor (Z.shiftl (Z.land a 3) 4) (Z.shiftr b 4)))
     (String (b64_char (Z.shiftl (Z.land b 15) 2))
     (String b64_pad EmptyString)))
  | a :: b :: c :: rest =>
      String (b64_char (Z.shiftr a 2))
     (String (b64_char (Z.lor (Z.shiftl (Z.land a 3) 4) (Z.shiftr b 4)))
     (String (b64_char (Z.lor (Z.shiftl (Z.land b 15) 2) (Z.shiftr c 6)))
     (String (b64_char (Z.land c 63)) (b64encode rest))))
  end.

(** *** The decoder of the round-trip property

    The program never decodes; this is the inverse the specification names
    ([decode_base64], then the 8 bytes read as a little-endian integer). *)

Fixpoint index_in (c : ascii) (s : string) : option Z :=
  match s with
  | EmptyString => None
  | String d r => if Ascii.eqb c d then Some 0 else Z.succ <$> index_in c r
  end.

Definition b64_index (c : ascii) : option Z := index_in c b64_alphabet.

Definition is_pad (c : ascii) : bool := Ascii.eqb c b64_pad.

Definition is_empty (s : string) : bool :=
  match s with EmptyString => true | _ => false end.

Definition byte1 (s1 s2 : Z) : Z := Z.lor (Z.shiftl s1 2) (Z.shiftr s2 4).
Definition byte2 (s2 s3 : Z) : Z :=
  Z.lor (Z.shiftl (Z.land s2 15) 4) (Z.shiftr s3 2).
Definition byte3 (s3 s4 : Z) : Z := Z.lor (Z.shiftl (Z.land s3 3) 6) s4.

Fixpoint b64decode (s : string) : option (list Z) :=
  match s with
  | EmptyString => Some []
  | String c1 (String c2 (String c3 (String c4 r))) =>
      s1 ← b64_index c1; s2 ← b64_index c2;
      if is_pad c3 then
        if is_pad c4 && is_empty r then Some [byte1 s1 s2] else None
      else
        s3 ← b64_index c3;
        if is_pad c4 then
          if is_empty r then Some [byte1 s1 s2; byte2 s2 s3] else None
        else
          s4 ← b64_index c4; t ← b64decode r;
          Some (byte1 s1 s2 :: byte2 s2 s3 :: byte3 s3 s4 :: t)
  | _ => None
  end.

(** [int.from_bytes(bs, byteorder='little')]. *)
Definition from_bytes_le (bs : list Z) : Z :=
  fold_right (fun b acc => b + 256 * acc) 0 bs.

(** The base64 token of a message id (run.py, lines 97-99). *)
Definition encode_id (id : Z) : result string :=
  b64encode <$> int_to_bytes id 8.

Definition decode_id (token : string) : option Z :=
  bs ← b64decode token;
  if Nat.eqb (List.length bs) 8 then Some (from_bytes_le bs) else None.

(** ** [datetime] and [strftime] *)

Record datetime : Type := {
  year : Z; month : Z; day : Z;
  hour : Z; minute : Z; second : Z
}.

Definition two_digits (n : Z) : string := Text.zfill 2 (Text.str n).
Definition four_digits (n : Z) : string := Text.zfill 4 (Text.str n).

(** One conversion specification of the C library's [strftime] (POSIX):
    [%D] is [%m/%d/%y] and [%F] is [%Y-%m-%d].  The year is printed on four
    digits, which is what every C library does from the year 1000 on. *)
Definition directive (d : ascii) (t : datetime) : string :=
  if Ascii.eqb d "H" then two_digits (hour t)
  else if Ascii.eqb d "M" then two_digits (minute t)
  else if Ascii.eqb d "S" then two_digits (second t)
  else if Ascii.eqb d "Y" then four_digits (year t)
  else if Ascii.eqb d "m" then two_digits (month t)
  else if Ascii.eqb d "d" then two_digits (day t)
  else if Ascii.eqb d "y" then two_digits (year t mod 100)
  else if Ascii.eqb d "D" then
    two_digits (month t) +:+ "/" +:+ two_digits (day t) +:+ "/"
      +:+ two_digits (year t mod 100)
  else if Ascii.eqb d "F" then
    four_digits (year t) +:+ "-" +:+ two_digits (month t) +:+ "-"
      +:+ two_digits (day t)
  else String "%" (String d EmptyString).

(** [t.strftime(fmt)]. *)
Fixpoint strftime (fmt : string) (t : datetime) : string :=
  match fmt with
  | EmptyString => EmptyString
  | String c r =>
      match r with
      | String d r' =>
          if Ascii.eqb c "%" then directive d t +:+ strftime r' t
          else String c (strftime r t)
      | EmptyString => String c EmptyString
      end
  end.

(** ** Configuration and process environment *)

(** The values imported from [config] that the core reads. *)
Record Config : Type := {
  LOG_DIR : string;
  USE_LOCALTIME : bool;
  IGNORE_SERVERS : list Z
}.

(** What a call reads from the process: the local-timezone conversion
    [t.replace(tzinfo=timezone.utc).astimezone(tz=None)], the clock
    ([datetime.now()], [datetime.utcnow()]) and [time.daylight]. *)
Record Env : Type := {
  astimezone_local : datetime -> datetime;
  now : datetime;
  utcnow : datetime;
  daylight : Z
}.

(** ** The discord objects the core reads *)

Record User : Type := {
  user_name : string;
  user_id : Z;
  discriminator : string
}.

Record Guild : Type := {
  guild_name : string;
  guild_id : Z
}.

(** [message.channel]: the three classes the router tests for, and any
    other object.  A direct-message channel knows its [recipient], the
    counterpart of the conversation. *)
Inductive Channel : Type :=
  | TextChannel (guild : Guild) (name : string) (id : Z)
  | DMChannel (recipient : User) (id : Z)
  | GroupChannel (name : string) (id : Z)
  | OtherChannel (guild : option Guild) (id : Z).

(** The guild of a channel as [message.guild] reads it,
    [getattr(channel, 'guild', None)]: None for the private channel
    classes, which have no such attribute. *)
Definition channel_guild (ch : Channel) : option Guild :=
  match ch with
  | TextChannel g _ _ => Some g
  | OtherChannel g _ => g
  | DMChannel _ _ | GroupChannel _ _ => None
  end.

(** [channel.guild], the plain attribute access of line 195: the private
    channel classes (DMChannel, GroupChannel) define no attribute of that
    name. *)
Definition channel_guild_attribute (ch : Channel) : result (option Guild) :=
  match ch with
  | TextChannel g _ _ => Ok (Some g)
  | OtherChannel g _ => Ok g
  | DMChannel _ _ | GroupChannel _ _ => Raise AttributeError
  end.

Definition supported (ch : Channel) : bool :=
  match ch with
  | OtherChannel _ _ => false
  | _ => true
  end.

Record Attachment : Type := { url : string }.

Record Message : Type := {
  id : Z;
  created_at : datetime;
  edited_at : option datetime;
  author : User;
  channel : Channel;
  clean_content : string;
  attachments : list Attachment
}.

(** [message.guild]: the guild of the message's channel, if any. *)
Definition guild (m : Message) : option Guild := channel_guild (channel m).

(** ** Path router: [make_filename] (run.py, lines 55-83) *)

Definition make_filename (cfg : Config) (message : Message)
  : result (option string) :=
  let time :=
    match edited_at message with
    | Some t => t
    | None => created_at message
    end in
  let timestamp := strftime "%F" time in
  match channel message with
  | TextChannel g name cid =>
      Some <$> format "{}/{}-{}/#{}-{}/{}.log"
        [ LOG_DIR cfg; clean_filename (guild_name g); Text.str (guild_id g);
          clean_filename name; Text.str cid; timestamp ]
  | DMChannel _ _ =>
      Some <$> format "{}/DM/{}-{}/{}.log"
        [ LOG_DIR cfg; clean_filename (user_name (author message));
          Text.str (user_id (author message)); timestamp ]
  | GroupChannel name cid =>
      Some <$> format "{}/DM/{}-{}/{}.log"
        [ LOG_DIR cfg; clean_filename name; Text.str cid; timestamp ]
  | OtherChannel _ _ => Ok None
  end.

(** ** Record formatter: [make_message] (run.py, lines 92-141) *)

(** The loop of lines 129-132. *)
Definition attachment_lines (atts : list Attachment) : string :=
  match atts with
  | [] => EmptyString
  | _ =>
      fold_left (fun acc attach => acc +:+ (nl +:+ "(attach) " +:+ url attach))
        atts EmptyString
  end.

Definition make_message (cfg : Config) (env : Env) (message : Message)
  : result string :=
  token ← encode_id (id message);
  tag ← format "{}]" [token];
  let message_id :=
    match edited_at message with
    | Some _ => "[E:"
    | None => "["
    end +:+ tag in
  let time :=
    match edited_at message with
    | Some t => t
    | None => created_at message
    end in
  let time := if USE_LOCALTIME cfg then astimezone_local env time else time in
  let timestamp := strftime "[%H:%M:%S]" time in
  author ← format "<{}#{}>"
    [ user_name (author message); discriminator (author message) ];
  let content := replace nl (nl +:+ "(newline) ") (clean_content message) in
  let attachments := attachment_lines (attachments message) in
  format "{} {} {} {} {}"
    [ message_id; timestamp; author; content; attachments ].

(** ** The file system and the calls made on it *)

(** Directories and regular files, by path; a file maps to its text.  Paths
    are compared as written (no normalisation); permission and capacity
    failures are not modelled. *)
Record FS : Type := {
  dirs : gset string;
  files : gmap string string
}.

(** A computation on the file system that may raise. *)
Definition io (A : Type) : Type := FS -> result A * FS.

Definition io_ret {A} (a : A) : io A := fun fs => (Ok a, fs).
Definition io_raise {A} (e : exn) : io A := fun fs => (Raise e, fs).
Definition io_lift {A} (r : result A) : io A := fun fs => (r, fs).
Definition io_bind {A B} (m : io A) (k : A -> io B) : io B := fun fs =>
  match m fs with
  | (Ok a, fs') => k a fs'
  | (Raise e, fs') => (Raise e, fs')
  end.

Notation "'let*' x := m 'in' k" := (io_bind m (fun x => k))
  (at level 10, x name, m at level 100, k at level 200).
Notation "'do' m 'then' k" := (io_bind m (fun _ => k))
  (at level 10, m at level 100, k at level 200).

Definition is_slash (c : ascii) : bool := Ascii.eqb c "/".

(** [p[:p.rfind('/') + 1]]. *)
Fixpoint head_to_last_slash (p : string) : string :=
  match p with
  | EmptyString => EmptyString
  | String c r =>
      let h := head_to_last_slash r in
      if is_slash c || negb (is_empty h) then String c h else EmptyString
  end.

(** [s.rstrip('/')]. *)
Fixpoint rstrip_slash (s : string) : string :=
  match s with
  | EmptyString => EmptyString
  | String c r =>
      let r' := rstrip_slash r in
      if is_slash c && is_empty r' then EmptyString else String c r'
  end.

(** [os.path.dirname] (posixpath). *)
Definition dirname (p : string) : string :=
  let head := head_to_last_slash p in
  if negb (is_empty head) && negb (Text.all is_slash head)
  then rstrip_slash head
  else head.

Fixpoint ends_with_slash (s : string) : bool :=
  match s with
  | EmptyString => false
  | String c EmptyString => is_slash c
  | String _ r => ends_with_slash r
  end.

Fixpoint prefixes_go (seen rest : string) : list string :=
  match rest with
  | EmptyString => [seen]
  | String c r =>
      (if is_slash c then [seen] else [])
        ++ prefixes_go (seen +:+ String c EmptyString) r
  end.

(** The directories on the way to [d], outermost first, [d] last. *)
Definition ancestors (d : string) : list string :=
  List.filter (fun p => negb (is_empty p) && negb (ends_with_slash p))
    (prefixes_go EmptyString d).

Definition is_file (p : string) (fs : FS) : bool :=
  bool_decide (p ∈ dom (files fs)).
Definition is_dir (p : string) (fs : FS) : bool :=
  bool_decide (p ∈ dirs fs).

(** [os.makedirs(d, exist_ok=True)]. *)
Definition makedirs (d : string) : io unit := fun fs =>
  if is_empty d then (Raise FileNotFoundError, fs)
  else if is_file d fs then (Raise FileExistsError, fs)
  else if existsb (fun p => is_file p fs) (ancestors d)
  then (Raise NotADirectoryError, fs)
  else (Ok tt, {| dirs := dirs fs ∪ list_to_set (ancestors d);
                  files := files fs |}).

(** [os.path.exists(p)]. *)
Definition path_exists (p : string) : io bool := fun fs =>
  (Ok (is_file p fs || is_dir p fs), fs).

(** [open(p, 'a', encoding='utf8')]: the file is created empty when absent. *)
Definition open_append (p : string) : io unit := fun fs =>
  if is_dir p fs then (Raise IsADirectoryError, fs)
  else (Ok tt, {| dirs := dirs fs;
                  files := match files fs !! p with
                           | Some _ => files fs
                           | None => <[p := EmptyString]> (files fs)
                           end |}).

(** [file.write(data)] on a file opened for appending. *)
Definition file_write (p data : string) : io unit := fun fs =>
  (Ok tt, {| dirs := dirs fs;
             files := <[p := default EmptyString (files fs !! p) +:+ data]>
                        (files fs) |}).

(** ** Append-only writer: [write] (run.py, lines 145-153) *)

Definition write (cfg : Config) (env : Env)
    (filename : option string) (string : string) : io unit :=
  match filename with
  | None => io_raise TypeError
  | Some filename =>
      do makedirs (dirname filename) then
      let* exists_ := path_exists filename in
      do open_append filename then
      do (if negb exists_ then
            let dt_object :=
              if USE_LOCALTIME cfg then now env else utcnow env in
            let starthour := if daylight env =? 0 then 10 else 11 in
            let* line := io_lift
              (format ("Session start: {} {}:00" +:+ nl)
                 [ strftime "%Y-%m-%D" dt_object; Text.str starthour ]) in
            file_write filename line
          else io_ret tt) then
      file_write filename (string +:+ nl)
  end.

(** ** Message action: [handle_message] (run.py, lines 162-167) *)

(** [g and g.id in IGNORE_SERVERS]. *)
Definition ignored (cfg : Config) (g : option Guild) : bool :=
  match g with
  | Some g => existsb (fun x => x =? guild_id g) (IGNORE_SERVERS cfg)
  | None => false
  end.

Definition handle_message (cfg : Config) (env : Env) (message : Message)
  : io unit :=
  if ignored cfg (guild message) then io_ret tt
  else
    let* filename := io_lift (make_filename cfg message) in
    let* string := io_lift (make_message cfg env message) in
    write cfg env filename string.

(** ** Event handlers (run.py, lines 172-205) *)

(** What the handlers ask of the connection: the message cache
    ([bot._connection._get_message]) and the channel lookup
    ([bot.get_channel]), each giving an object or None, and the fetch of a
    message ([channel.get_message], awaited).  The fetch is a request to
    the platform: the library returns the message or raises ([NotFound],
    [Forbidden], [HTTPException]); the handler also tests its result
    against None (line 198), so a result of None is kept in the type. *)
Record Platform : Type := {
  _get_message : Z -> option Message;
  get_channel : Z -> option Channel;
  get_message : Channel -> Z -> result (option Message)
}.

(** [discord.RawMessageUpdateEvent]; [channel_id] is
    [int(payload.data['channel_id'])]. *)
Record RawMessageUpdateEvent : Type := {
  message_id : Z;
  channel_id : Z
}.

Definition on_message (cfg : Config) (env : Env) (message : Message)
  : io unit :=
  handle_message cfg env message.

(** The first listener registered for the edit event (line 185). *)
Definition on_message_edit_pass (before after : Message) : io unit :=
  io_ret tt.

(** The second listener registered for the edit event (line 204). *)
Definition on_message_edit (cfg : Config) (env : Env)
    (before after : Message) : io unit :=
  handle_message cfg env after.

Definition on_raw_message_edit (cfg : Config) (env : Env) (bot : Platform)
    (payload : RawMessageUpdateEvent) : io unit :=
  match _get_message bot (message_id payload) with
  | Some _ => io_ret tt
  | None =>
      match get_channel bot (channel_id payload) with
      | None => io_ret tt
      | Some channel =>
          let* g := io_lift (channel_guild_attribute channel) in
          if ignored cfg g then io_ret tt
          else
            let* message :=
              io_lift (get_message bot channel (message_id payload)) in
            match message with
            | None => io_ret tt
            | Some message => handle_message cfg env message
            end
      end
  end.

(** *** Dispatch

    [bot.listen()] appends each decorated coroutine to the listeners of its
    event name, so the edit event has two listeners.  The connection runs
    every listener of an event and reports an exception of one without
    stopping the others. *)
Inductive Event : Type :=
  | MessageEvent (message : Message)
  | MessageEditEvent (before after : Message)
  | RawMessageEditEvent (payload : RawMessageUpdateEvent).

Definition listeners (cfg : Config) (env : Env) (bot : Platform) (ev : Event)
  : list (io unit) :=
  match ev with
  | MessageEvent message => [ on_message cfg env message ]
  | MessageEditEvent before after =>
      [ on_message_edit_pass before after; on_message_edit cfg env before after ]
  | RawMessageEditEvent payload => [ on_raw_message_edit cfg env bot payload ]
  end.

Fixpoint run_listeners (ls : list (io unit)) (fs : FS)
  : list (result unit) * FS :=
  match ls with
  | [] => ([], fs)
  | l :: rest =>
      let '(r, fs1) := l fs in
      let '(rs, fs2) := run_listeners rest fs1 in
      (r :: rs, fs2)
  end.

Definition dispatch (cfg : Config) (env : Env) (bot : Platform) (ev : Event)
  : FS -> list (result unit) * FS :=
  run_listeners (listeners cfg env bot ev).

(** ** The specification's reading of a log line and of a route

    These definitions follow the specification's sentences; the theorems
    below compare them with the functions of the program. *)

(** Effective date and time: the edit timestamp if present, else the creation
    timestamp. *)
Definition effective_time (m : Message) : datetime :=
  default (created_at m) (edited_at m).

(** The localtime-vs-UTC policy applied to a stored (UTC) instant. *)
Definition under_policy (cfg : Config) (env : Env) (t : datetime) : datetime :=
  if USE_LOCALTIME cfg then astimezone_local env t else t.

(** [HH:MM:SS], 24-hour and zero-padded. *)
Definition hms (t : datetime) : string :=
  two_digits (hour t) +:+ ":" +:+ two_digits (minute t) +:+ ":"
    +:+ two_digits (second t).

(** [YYYY-MM-DD]. *)
Definition ymd (t : datetime) : string :=
  four_digits (year t) +:+ "-" +:+ two_digits (month t) +:+ "-"
    +:+ two_digits (day t).

Definition valid_clock (t : datetime) : Prop :=
  0 <= hour t < 24 /\ 0 <= minute t < 60 /\ 0 <= second t < 60.

Definition newline_marker : string := "(newline) ".

(** Every newline replaced by a newline followed by the marker. *)
Definition escape_newlines (s : string) : string :=
  Text.expand
    (fun c => if Ascii.eqb c "010" then nl +:+ newline_marker
              else String c EmptyString)
    s.

(** One [\n(attach) <url>] per attachment, in order. *)
Definition attach_segment (atts : list Attachment) : string :=
  fold_right String.append EmptyString
    (map (fun a => nl +:+ "(attach) " +:+ url a) atts).

(** The idtag: [E:] for an edited message, then the token. *)
Definition idtag (m : Message) (token : string) : string :=
  (if edited_at m is Some _ then "E:" else EmptyString) +:+ token.

(** The exact shape of the line. *)
Definition log_line (cfg : Config) (env : Env) (m : Message) (token : string)
  : string :=
  "[" +:+ idtag m token +:+ "] [" +:+ hms (under_policy cfg env (effective_time m))
    +:+ "] <" +:+ user_name (author m) +:+ "#" +:+ discriminator (author m)
    +:+ "> " +:+ escape_newlines (clean_content m)
    +:+ " " +:+ attach_segment (attachments m).

(** The route in the specification's words (section 4.2): the date under
    the localtime-vs-UTC policy, a direct message filed under the
    counterpart, and no path for an unsupported conversation. *)
Definition route_date (cfg : Config) (env : Env) (m : Message) : string :=
  ymd (under_policy cfg env (effective_time m)).

Definition dm_path (cfg : Config) (name : string) (n : Z) (date : string)
  : string :=
  LOG_DIR cfg +:+ "/DM/" +:+ clean_filename name +:+ "-" +:+ Text.str n
    +:+ "/" +:+ date +:+ ".log".

Definition guild_path (cfg : Config) (g : Guild) (name : string) (n : Z)
    (date : string) : string :=
  LOG_DIR cfg +:+ "/" +:+ clean_filename (guild_name g) +:+ "-"
    +:+ Text.str (guild_id g) +:+ "/#" +:+ clean_filename name +:+ "-"
    +:+ Text.str n +:+ "/" +:+ date +:+ ".log".

Definition route_spec (cfg : Config) (env : Env) (m : Message)
  : option string :=
  match channel m with
  | TextChannel g name cid =>
      Some (guild_path cfg g name cid (route_date cfg env m))
  | DMChannel counterpart _ =>
      Some (dm_path cfg (user_name counterpart) (user_id counterpart)
              (route_date cfg env m))
  | GroupChannel name cid => Some (dm_path cfg name cid (route_date cfg env m))
  | OtherChannel _ _ => None
  end.

(** The same route with a direct message filed under the author of the
    message. *)
Definition route_by_author (cfg : Config) (env : Env) (m : Message)
  : option string :=
  match channel m with
  | DMChannel _ _ =>
      Some (dm_path cfg (user_name (author m)) (user_id (author m))
              (route_date cfg env m))
  | _ => route_spec cfg env m
  end.

(** ** What an accepted write leaves in the file *)

(** The marker line that [write] puts at the head of a new file. *)
Definition session_start (cfg : Config) (env : Env) : string :=
  "Session start: "
    +:+ strftime "%Y-%m-%D" (if USE_LOCALTIME cfg then now env else utcnow env)
    +:+ " " +:+ Text.str (if daylight env =? 0 then 10 else 11)
    +:+ ":00" +:+ nl.

(** The marker line the specification asks for:
    [Session start: <YYYY-MM-DD> <H>:00]. *)
Definition session_start_spec (cfg : Config) (env : Env) : string :=
  "Session start: "
    +:+ ymd (if USE_LOCALTIME cfg then now env else utcnow env)
    +:+ " " +:+ Text.str (if daylight env =? 0 then 10 else 11)
    +:+ ":00" +:+ nl.

(** The text of the file after one entry is appended to [old]. *)
Definition appended (cfg : Config) (env : Env) (old : option string)
    (entry : string) : string :=
  match old with
  | Some text => text +:+ entry +:+ nl
  | None => session_start cfg env +:+ entry +:+ nl
  end.

(** The file system does not refuse the path: its directory has a name, no
    regular file stands on the way to it, and the path is not a directory. *)
Definition accepts (filename : string) (fs : FS) : bool :=
  negb (is_empty (dirname filename))
  && negb (is_file (dirname filename) fs)
  && negb (existsb (fun p => is_file p fs) (ancestors (dirname filename)))
  && negb (is_dir filename fs)
  && negb (existsb (String.eqb filename) (ancestors (dirname filename))).

Definition after_append (cfg : Config) (env : Env) (filename entry : string)
    (fs : FS) : FS :=
  {| dirs := dirs fs ∪ list_to_set (ancestors (dirname filename));
     files := <[filename := appended cfg env (files fs !! filename) entry]>
                (files fs) |}.

(** The conversation an event is about, as the handlers find it. *)
Definition event_channel (bot : Platform) (ev : Event) : option Channel :=
  match ev with
  | MessageEvent m => Some (channel m)
  | MessageEditEvent _ after => Some (channel after)
  | RawMessageEditEvent payload => get_channel bot (channel_id payload)
  end.

(** ** Checking a property on a range of integers *)

Definition is_byte (b : Z) : Prop := 0 <= b < 256.

Definition below (n : nat) : list Z := map Z.of_nat (seq 0 n).

(** The four sextets of a group of three bytes, as [b64encode] cuts them. *)
Definition sx1 (a : Z) : Z := Z.shiftr a 2.
Definition sx2 (a b : Z) : Z := Z.lor (Z.shiftl (Z.land a 3) 4) (Z.shiftr b 4).
Definition sx3 (b c : Z) : Z := Z.lor (Z.shiftl (Z.land b 15) 2) (Z.shiftr c 6).
Definition sx4 (c : Z) : Z := Z.land c 63.

Definition is_sextet (s : Z) : bool := (0 <=? s) && (s <? 64).

(** ** Sample objects *)

Module Sample.

Definition noon : datetime :=
  {| year := 2023; month := 5; day := 1; hour := 10; minute := 0; second := 0 |}.

Definition late : datetime :=
  {| year := 2023; month := 5; day := 1; hour := 23; minute := 30; second := 0 |}.

(** A local timezone two hours ahead of UTC, for times of day before
    22:00 and for [late]. *)
Definition plus_two (t : datetime) : datetime :=
  if 22 <=? hour t
  then {| year := year t; month := month t; day := day t + 1;
          hour := hour t - 22; minute := minute t; second := second t |}
  else {| year := year t; month := month t; day := day t;
          hour := hour t + 2; minute := minute t; second := second t |}.

Definition utc_cfg : Config :=
  {| LOG_DIR := "logs"; USE_LOCALTIME := false; IGNORE_SERVERS := [7] |}.

Definition local_cfg : Config :=
  {| LOG_DIR := "logs"; USE_LOCALTIME := true; IGNORE_SERVERS := [7] |}.

Definition env : Env :=
  {| astimezone_local := plus_two; now := plus_two noon; utcnow := noon;
     daylight := 0 |}.

Definition alice : User :=
  {| user_name := "alice"; user_id := 5; discriminator := "0001" |}.

Definition me : User :=
  {| user_name := "logger"; user_id := 9; discriminator := "4242" |}.

Definition test_guild : Guild := {| guild_name := "Test Guild"; guild_id := 1 |}.

Definition muted_guild : Guild := {| guild_name := "Muted"; guild_id := 7 |}.

Definition message (ch : Channel) (who : User) (at_ : datetime) : Message :=
  {| id := 1234567890123456789; created_at := at_; edited_at := None;
     author := who; channel := ch; clean_content := "hello world";
     attachments := [] |}.

(** The end-to-end scenario of the specification. *)
Definition hello : Message :=
  message (TextChannel test_guild "general" 2) alice noon.

(** A direct message written by the logging account to alice. *)
Definition dm_sent : Message := message (DMChannel alice 3) me noon.

(** A direct message written by alice. *)
Definition dm_received : Message := message (DMChannel alice 3) alice noon.

Definition late_hello : Message :=
  message (TextChannel test_guild "general" 2) alice late.

Definition voice : Message := message (OtherChannel (Some test_guild) 4) alice noon.

Definition muted : Message :=
  message (TextChannel muted_guild "general" 8) alice noon.

Definition edited : Message :=
  {| id := 1234567890123456789; created_at := noon; edited_at := Some late;
     author := alice; channel := TextChannel test_guild "general" 2;
     clean_content := "line1" +:+ nl +:+ "line2";
     attachments := [ {| url := "http://x/a.png" |}; {| url := "http://x/b.png" |} ] |}.

Definition empty_disk : FS := {| dirs := ∅; files := ∅ |}.

Definition raw_edit : RawMessageUpdateEvent :=
  {| message_id := 1234567890123456789; channel_id := 2 |}.

(** A connection whose cache holds [m]. *)
Definition caching (m : Message) : Platform :=
  {| _get_message := fun n => if n =? id m then Some m else None;
     get_channel := fun n => Some (channel m);
     get_message := fun _ _ => Ok (Some m) |}.

(** A connection with an empty cache that resolves no channel. *)
Definition blind : Platform :=
  {| _get_message := fun _ => None;
     get_channel := fun _ => None;
     get_message := fun _ _ => Raise NotFound |}.

(** A connection with an empty cache that resolves the channel of [m]. *)
Definition uncached (m : Message) : Platform :=
  {| _get_message := fun _ => None;
     get_channel := fun _ => Some (channel m);
     get_message := fun _ _ => Ok (Some m) |}.

End Sample.

(** ** Vocabulary for further properties of the program *)

Definition no_slash (s : string) : bool :=
  Text.all (fun c => negb (is_slash c)) s.

Definition no_newline (s : string) : bool :=
  Text.all (fun c => negb (Ascii.eqb c "010")) s.

Fixpoint count_slash (s : string) : nat :=
  match s with
  | EmptyString => O
  | String c r => ((if is_slash c then 1 else 0) + count_slash r)%nat
  end.

(** A character of [str(n)]: a decimal digit or the minus sign. *)
Definition is_decimal (c : ascii) : bool :=
  Ascii.eqb c "-" || ((48 <=? N_of_ascii c)%N && (N_of_ascii c <=? 57)%N).

(** The directory of a conversation, as [make_filename] spells it. *)
Definition conversation_dir (cfg : Config) (m : Message) : option string :=
  match channel m with
  | TextChannel g name cid =>
      Some (LOG_DIR cfg +:+ "/" +:+ clean_filename (guild_name g) +:+ "-"
              +:+ Text.str (guild_id g) +:+ "/#" +:+ clean_filename name
              +:+ "-" +:+ Text.str cid)
  | DMChannel _ _ =>
      Some (LOG_DIR cfg +:+ "/DM/" +:+ clean_filename (user_name (author m))
              +:+ "-" +:+ Text.str (user_id (author m)))
  | GroupChannel name cid =>
      Some (LOG_DIR cfg +:+ "/DM/" +:+ clean_filename name +:+ "-"
              +:+ Text.str cid)
  | OtherChannel _ _ => None
  end.

(** The name of the day's file inside the conversation directory. *)
Definition day_file (m : Message) : string :=
  ymd (effective_time m) +:+ ".log".

(** No regular file stands where the writer needs a directory, and the path
    is not a directory. *)
Definition unobstructed (filename : string) (fs : FS) : bool :=
  negb (is_file (dirname filename) fs)
  && negb (existsb (fun p => is_file p fs) (ancestors (dirname filename)))
  && negb (is_dir filename fs).


(** Every name of [s], the text between two slashes, has at most [limit]
    bytes; [run] is the length of the name that ends where [s] starts. *)
Fixpoint components_within (limit run : nat) (s : string) : bool :=
  match s with
  | EmptyString => (run <=? limit)%nat
  | String c r =>
      if is_slash c
      then (run <=? limit)%nat && components_within limit 0 r
      else components_within limit (S run) r
  end.

(** A path the operating system can be given: no NUL byte, no name longer
    than 255 bytes (NAME_MAX) and fewer than 4096 bytes in all (PATH_MAX),
    the limits of the common Linux file systems. *)
Definition within_limits (filename : string) : bool :=
  Text.all (fun c => negb (Ascii.eqb c "000")) filename
  && components_within 255 0 filename
  && (String.length filename <? 4096)%nat.

(** The file system takes the path: it is within the limits and nothing
    obstructs it.  Permissions and free space are not part of [FS]. *)
Definition takes (filename : string) (fs : FS) : bool :=
  within_limits filename && unobstructed filename fs.
(** Nothing is lost between two states of the file system: every directory
    stays, and every file keeps its text as the head of its new text. *)
Definition grows (fs fs' : FS) : Prop :=
  dirs fs ⊆ dirs fs' /\
  forall p old, files fs !! p = Some old ->
                exists more, files fs' !! p = Some (old +:+ more).

Definition append_only {A} (m : io A) : Prop :=
  forall fs, grows fs (snd (m fs)).

(** A computation that leaves every file but [target] as it was. *)
Definition touches_only {A} (target : option string) (m : io A) : Prop :=
  forall fs p, Some p <> target -> files (snd (m fs)) !! p = files fs !! p.

(** The events of a run, delivered one after the other, each with the
    process environment of its delivery. *)
Fixpoint deliver (cfg : Config) (bot : Platform) (evs : list (Env * Event))
    (fs : FS) : FS :=
  match evs with
  | [] => fs
  | (env, ev) :: rest =>
      deliver cfg bot rest (snd (dispatch cfg env bot ev fs))
  end.

(** The entry of a message whose id has 64 bits. *)
Definition entry_of (cfg : Config) (env : Env) (m : Message) : string :=
  log_line cfg env m (b64encode (to_bytes_le 8 (id m))).



(** A message, with the environment of its delivery, that the message
    action logs to [p]: routed there, not ignored, with an id of 64 bits. *)
Definition loggable (cfg : Config) (p : string) (em : Env * Message) : Prop :=
  make_filename cfg (snd em) = Ok (Some p) /\
  ignored cfg (guild (snd em)) = false /\
  0 <= id (snd em) < 2 ^ 64.

(** Every line of an entry after the first starts with one of the two
    markers: each newline is followed by [(newline) ] or [(attach) ]. *)
Fixpoint continuation_marked (s : string) : bool :=
  match s with
  | EmptyString => true
  | String c r =>
      (if Ascii.eqb c "010"
       then String.prefix newline_marker r || String.prefix "(attach) " r
       else true)
      && continuation_marked r
  end.

(** A character of the standard base64 alphabet, or the padding. *)
Definition b64_symbol (c : ascii) : bool :=
  is_pad c || (if b64_index c is Some _ then true else false).

Definition in_range_64 (n : Z) : bool := (0 <=? n) && (n <? 2 ^ 64).

Definition no_dash (s : string) : bool :=
  Text.all (fun c => negb (Ascii.eqb c "-")) s.




(** ** The imports from [config] (run.py, lines 25-41) *)

(** The module [config] as the imports see it: a name that it does not
    define is None. *)
Record ConfigModule : Type := {
  config_TOKEN : option string;
  config_COMMAND_PREFIX : option string;
  config_USE_LOCALTIME : option bool;
  config_LOG_DIR : option string;
  config_MAX_MESSAGES : option Z;
  config_AWAY_STATUS : option string;
  config_IGNORE_SERVERS : option (list Z)
}.

(** The globals of [run.py] once the imports are done; [settings] gathers
    the three that the core reads. *)
Record Globals : Type := {
  TOKEN : string;
  COMMAND_PREFIX : string;
  MAX_MESSAGES : Z;
  AWAY_STATUS : string;
  settings : Config
}.

(** The ImportError of [from config import name]. *)
Inductive ImportError : Type :=
  | cannot_import_name (name : string).

Definition import_name {A} (name : string) (v : option A) : ImportError + A :=
  match v with
  | Some a => inr a
  | None => inl (cannot_import_name name)
  end.

(** Lines 25-29 import six names, in this order, and let an ImportError
    through; lines 35-41 set [IGNORE_SERVERS] to the empty list and then
    try to import it, passing over an ImportError. *)
Definition import_config (config : ConfigModule) : ImportError + Globals :=
  match import_name "TOKEN" (config_TOKEN config) with
  | inl e => inl e
  | inr token =>
  match import_name "COMMAND_PREFIX" (config_COMMAND_PREFIX config) with
  | inl e => inl e
  | inr prefix =>
  match import_name "USE_LOCALTIME" (config_USE_LOCALTIME config) with
  | inl e => inl e
  | inr use_localtime =>
  match import_name "LOG_DIR" (config_LOG_DIR config) with
  | inl e => inl e
  | inr log_dir =>
  match import_name "MAX_MESSAGES" (config_MAX_MESSAGES config) with
  | inl e => inl e
  | inr max_messages =>
  match import_name "AWAY_STATUS" (config_AWAY_STATUS config) with
  | inl e => inl e
  | inr away_status =>
      let ignore_servers :=
        match import_name "IGNORE_SERVERS" (config_IGNORE_SERVERS config) with
        | inr servers => servers
        | inl _ => []
        end in
      inr {| TOKEN := token; COMMAND_PREFIX := prefix;
             MAX_MESSAGES := max_messages; AWAY_STATUS := away_status;
             settings := {| LOG_DIR := log_dir;
                            USE_LOCALTIME := use_localtime;
                            IGNORE_SERVERS := ignore_servers |} |}
  end end end end end end.

(** ** More sample objects *)

Module Cases.

(** A message whose id needs a ninth byte. *)
Definition huge : Message :=
  {| id := 2 ^ 64; created_at := Sample.noon; edited_at := None;
     author := Sample.alice;
     channel := TextChannel Sample.test_guild "general" 2;
     clean_content := "hello world"; attachments := [] |}.

Definition hello_path : string := "logs/Test Guild-1/#general-2/2023-05-01.log".

Definition alice_path : string := "logs/DM/alice-5/2023-05-01.log".

(** A configuration module of an installation that predates the ignore
    list. *)
Definition old_config : ConfigModule :=
  {| config_TOKEN := Some "token"; config_COMMAND_PREFIX := Some "!";
     config_USE_LOCALTIME := Some false; config_LOG_DIR := Some "logs";
     config_MAX_MESSAGES := Some 5000; config_AWAY_STATUS := Some "idle";
     config_IGNORE_SERVERS := None |}.

(** A connection with an empty cache that resolves the channel of the
    scenario, on which the edited message is gone when the handler asks
    for it: the fetch raises [NotFound]. *)
Definition deleted : Platform :=
  {| _get_message := fun _ => None;
     get_channel := fun _ => Some (TextChannel Sample.test_guild "general" 2);
     get_message := fun _ _ => Raise NotFound |}.

(** The text of the scenario's file after the edit of [Sample.edited] is
    logged on an empty disk. *)
Definition edited_text : string :=
  "Session start: 2023-05-05/01/23 10:00" +:+ nl
    +:+ "[E:FYHpffQQIhE=] [23:30:00] <alice#0001> line1" +:+ nl
    +:+ "(newline) line2 " +:+ nl
    +:+ "(attach) http://x/a.png" +:+ nl
    +:+ "(attach) http://x/b.png" +:+ nl.

(** The text of alice's file after [Sample.dm_received] is logged on an
    empty disk. *)
Definition alice_text : string :=
  "Session start: 2023-05-05/01/23 10:00" +:+ nl
    +:+ "[FYHpffQQIhE=] [10:00:00] <alice#0001> hello world " +:+ nl.

End Cases.

(** * Properties *)

(** ** Sanitizer *)

Section Sanitizer.

Lemma class_matches_forbidden (c : ascii) :
  class_matches filename_class c = forbidden c.
Proof.
  unfold class_matches, forbidden, filename_class, forbidden_punctuation,
    is_control; cbn [existsb item_matches].
  rewrite !orb_false_r, <- !orb_assoc. repeat f_equal.
  destruct (N_of_ascii c); reflexivity.
Qed.

Lemma clean_filename_filter (s : string) :
  clean_filename s = Text.filter (fun c => negb (forbidden c)) s.
Proof.
  unfold clean_filename.
  induction s as [|c r IH]; cbn [re_sub_class Text.filter]; [reflexivity|].
  rewrite class_matches_forbidden, IH.
  destruct (forbidden c); reflexivity.
Qed.

Lemma filter_mem (keep : ascii -> bool) (s : string) (c : ascii) :
  Text.mem c (Text.filter keep s) <-> Text.mem c s /\ keep c = true.
Proof.
  unfold Text.mem, Text.chars.
  induction s as [|d r IH]; cbn [Text.filter list_ascii_of_string In].
  - tauto.
  - destruct (keep d) eqn:Hd; cbn [list_ascii_of_string In]; rewrite IH.
    + split; [intros [->|[? ?]]; auto | tauto].
    + split; [tauto | intros [[->|?] ?]; [congruence | auto]].
Qed.

Lemma filter_fixed (keep : ascii -> bool) (s : string) :
  (forall c, Text.mem c s -> keep c = true) -> Text.filter keep s = s.
Proof.
  unfold Text.mem, Text.chars.
  induction s as [|d r IH]; cbn [Text.filter list_ascii_of_string In];
    intros H; [reflexivity|].
  rewrite (H d) by auto. f_equal. apply IH. intros c Hc. apply H. auto.
Qed.

(** C7. The sanitizer keeps exactly the characters outside the forbidden
    set (nine punctuation characters and the controls 0x00-0x1F), in their
    order: a character occurs in the output iff it occurs in the input and
    is not forbidden; the output holds no forbidden character; sanitizing
    twice is sanitizing once.  Being a total function, it has no error
    case. *)
Theorem clean_filename_spec (s : string) :
  clean_filename s = Text.filter (fun c => negb (forbidden c)) s /\
  (forall c, Text.mem c (clean_filename s) <->
             Text.mem c s /\ forbidden c = false) /\
  (forall c, Text.mem c (clean_filename s) -> forbidden c = false) /\
  clean_filename (clean_filename s) = clean_filename s.
Proof.
  assert (Hmem : forall c, Text.mem c (clean_filename s) <->
                           Text.mem c s /\ forbidden c = false).
  { intros c. rewrite clean_filename_filter, filter_mem.
    rewrite negb_true_iff. tauto. }
  split; [apply clean_filename_filter|].
  split; [exact Hmem|].
  split; [intros c Hc; apply Hmem in Hc; tauto|].
  rewrite (clean_filename_filter (clean_filename s)).
  apply filter_fixed. intros c Hc. apply Hmem in Hc.
  rewrite negb_true_iff. tauto.
Qed.

End Sanitizer.

(** ** Message-id token: base64 over the 8 little-endian bytes *)

Section Base64.

Lemma below_spec (n : nat) (P : Z -> bool) :
  forallb P (below n) = true ->
  forall i, 0 <= i < Z.of_nat n -> P i = true.
Proof.
  intros H i Hi. rewrite forallb_forall in H. apply H.
  unfold below. apply in_map_iff. exists (Z.to_nat i).
  split; [lia|]. apply in_seq. lia.
Qed.

Lemma below2_spec (n m : nat) (P : Z -> Z -> bool) :
  forallb (fun a => forallb (P a) (below m)) (below n) = true ->
  forall a b, 0 <= a < Z.of_nat n -> 0 <= b < Z.of_nat m -> P a b = true.
Proof.
  intros H a b Ha Hb.
  apply (below_spec m (P a)); [|exact Hb].
  apply (below_spec n (fun a => forallb (P a) (below m)) H a Ha).
Qed.

Lemma sextet_index (s : Z) :
  is_sextet s = true ->
  b64_index (b64_char s) = Some s /\ is_pad (b64_char s) = false.
Proof.
  intros H. unfold is_sextet in H.
  apply andb_true_iff in H as [H1%Z.leb_le H2%Z.ltb_lt].
  assert (Hall : forallb (fun s =>
            match b64_index (b64_char s) with
            | Some s' => s' =? s
            | None => false
            end && negb (is_pad (b64_char s))) (below 64) = true)
    by (vm_compute; reflexivity).
  pose proof (below_spec 64 _ Hall s ltac:(lia)) as Hs. cbv beta in Hs.
  apply andb_true_iff in Hs as [Hi Hp].
  destruct (b64_index (b64_char s)) as [s'|]; [|discriminate].
  apply Z.eqb_eq in Hi as ->. apply negb_true_iff in Hp. auto.
Qed.

Lemma sextets_pair (a b : Z) :
  is_byte a -> is_byte b ->
  is_sextet (sx1 a) = true /\ is_sextet (sx2 a b) = true /\
  is_sextet (sx3 a b) = true /\ is_sextet (sx4 a) = true /\
  is_sextet (Z.shiftl (Z.land a 3) 4) = true /\
  is_sextet (Z.shiftl (Z.land a 15) 2) = true /\
  byte1 (sx1 a) (sx2 a b) = a /\
  byte1 (sx1 a) (Z.shiftl (Z.land a 3) 4) = a /\
  Z.land (sx2 a b) 15 = Z.shiftr b 4 /\
  Z.shiftr (sx3 a b) 2 = Z.land a 15 /\
  Z.shiftr (Z.shiftl (Z.land a 15) 2) 2 = Z.land a 15 /\
  Z.land (sx3 a b) 3 = Z.shiftr b 6 /\
  Z.lor (Z.shiftl (Z.shiftr a 4) 4) (Z.land a 15) = a /\
  Z.lor (Z.shiftl (Z.shiftr a 6) 6) (sx4 a) = a.
Proof.
  intros Ha Hb.
  assert (Hall : forallb (fun a => forallb (fun b =>
      is_sextet (sx1 a) && is_sextet (sx2 a b) &&
      is_sextet (sx3 a b) && is_sextet (sx4 a) &&
      is_sextet (Z.shiftl (Z.land a 3) 4) &&
      is_sextet (Z.shiftl (Z.land a 15) 2) &&
      (byte1 (sx1 a) (sx2 a b) =? a) &&
      (byte1 (sx1 a) (Z.shiftl (Z.land a 3) 4) =? a) &&
      (Z.land (sx2 a b) 15 =? Z.shiftr b 4) &&
      (Z.shiftr (sx3 a b) 2 =? Z.land a 15) &&
      (Z.shiftr (Z.shiftl (Z.land a 15) 2) 2 =? Z.land a 15) &&
      (Z.land (sx3 a b) 3 =? Z.shiftr b 6) &&
      (Z.lor (Z.shiftl (Z.shiftr a 4) 4) (Z.land a 15) =? a) &&
      (Z.lor (Z.shiftl (Z.shiftr a 6) 6) (sx4 a) =? a))
      (below 256)) (below 256) = true)
    by (vm_compute; reflexivity).
  pose proof (below2_spec 256 256 _ Hall a b Ha Hb) as H. cbv beta in H.
  do 13 (apply andb_true_iff in H as [H ?]).
  repeat match goal with
         | E : (_ =? _) = true |- _ => apply Z.eqb_eq in E
         end.
  repeat split; assumption.
Qed.

Lemma byte2_group (a b c : Z) :
  is_byte a -> is_byte b -> is_byte c -> byte2 (sx2 a b) (sx3 b c) = b.
Proof.
  intros Ha Hb Hc. unfold byte2.
  destruct (sextets_pair a b Ha Hb) as (_&_&_&_&_&_&_&_&->&_).
  destruct (sextets_pair b c Hb Hc) as (_&_&_&_&_&_&_&_&_&->&_).
  apply (sextets_pair b b Hb Hb).
Qed.

Lemma byte2_tail (a b : Z) :
  is_byte a -> is_byte b ->
  byte2 (sx2 a b) (Z.shiftl (Z.land b 15) 2) = b.
Proof.
  intros Ha Hb. unfold byte2.
  destruct (sextets_pair a b Ha Hb) as (_&_&_&_&_&_&_&_&->&_).
  destruct (sextets_pair b b Hb Hb) as (_&_&_&_&_&_&_&_&_&_&->&_&->&_).
  reflexivity.
Qed.

Lemma byte3_group (b c : Z) :
  is_byte b -> is_byte c -> byte3 (sx3 b c) (sx4 c) = c.
Proof.
  intros Hb Hc. unfold byte3.
  destruct (sextets_pair b c Hb Hc) as (_&_&_&_&_&_&_&_&_&_&_&->&_).
  apply (sextets_pair c c Hc Hc).
Qed.

Lemma b64decode_group (s1 s2 s3 s4 : Z) (r : string) :
  is_sextet s1 = true -> is_sextet s2 = true ->
  is_sextet s3 = true -> is_sextet s4 = true ->
  b64decode (String (b64_char s1) (String (b64_char s2)
            (String (b64_char s3) (String (b64_char s4) r)))) =
  (t ← b64decode r; Some (byte1 s1 s2 :: byte2 s2 s3 :: byte3 s3 s4 :: t)).
Proof.
  intros H1 H2 H3 H4. cbn [b64decode].
  destruct (sextet_index _ H1) as [-> _].
  destruct (sextet_index _ H2) as [-> _].
  destruct (sextet_index _ H3) as [-> ->].
  destruct (sextet_index _ H4) as [-> ->].
  reflexivity.
Qed.

Lemma b64decode_tail2 (s1 s2 s3 : Z) :
  is_sextet s1 = true -> is_sextet s2 = true -> is_sextet s3 = true ->
  b64decode (String (b64_char s1) (String (b64_char s2)
            (String (b64_char s3) (String b64_pad EmptyString)))) =
  Some [byte1 s1 s2; byte2 s2 s3].
Proof.
  intros H1 H2 H3. cbn [b64decode].
  destruct (sextet_index _ H1) as [-> _].
  destruct (sextet_index _ H2) as [-> _].
  destruct (sextet_index _ H3) as [-> ->].
  reflexivity.
Qed.

Lemma b64decode_tail1 (s1 s2 : Z) :
  is_sextet s1 = true -> is_sextet s2 = true ->
  b64decode (String (b64_char s1) (String (b64_char s2)
            (String b64_pad (String b64_pad EmptyString)))) =
  Some [byte1 s1 s2].
Proof.
  intros H1 H2. cbn [b64decode].
  destruct (sextet_index _ H1) as [-> _].
  destruct (sextet_index _ H2) as [-> _].
  reflexivity.
Qed.

Lemma b64decode_b64encode (bs : list Z) :
  Forall is_byte bs -> b64decode (b64encode bs) = Some bs.
Proof.
  remember (List.length bs) as n eqn:Hn.
  revert bs Hn. induction (lt_wf n) as [n _ IH]. intros bs Hn Hbs.
  destruct bs as [|a [|b [|c rest]]].
  - reflexivity.
  - apply Forall_cons_1 in Hbs as [Ha _].
    destruct (sextets_pair a a Ha Ha) as (S1&_&_&_&S2&_&_&B1&_).
    unfold sx1 in *. cbn [b64encode].
    rewrite (b64decode_tail1 _ _ S1 S2), B1. reflexivity.
  - apply Forall_cons_1 in Hbs as [Ha Hbs].
    apply Forall_cons_1 in Hbs as [Hb _].
    destruct (sextets_pair a b Ha Hb) as (S1&S2&_&_&_&_&B1&_).
    destruct (sextets_pair b b Hb Hb) as (_&_&_&_&_&S3&_).
    pose proof (byte2_tail a b Ha Hb) as B2.
    unfold sx1, sx2 in *. cbn [b64encode].
    rewrite (b64decode_tail2 _ _ _ S1 S2 S3), B1, B2. reflexivity.
  - apply Forall_cons_1 in Hbs as [Ha Hbs].
    apply Forall_cons_1 in Hbs as [Hb Hbs].
    apply Forall_cons_1 in Hbs as [Hc Hbs].
    destruct (sextets_pair a b Ha Hb) as (S1&S2&_&_&_&_&B1&_).
    destruct (sextets_pair b c Hb Hc) as (_&_&S3&_).
    destruct (sextets_pair c c Hc Hc) as (_&_&_&S4&_).
    pose proof (byte2_group a b c Ha Hb Hc) as B2.
    pose proof (byte3_group b c Hb Hc) as B3.
    unfold sx1, sx2, sx3, sx4 in *. cbn [b64encode].
    rewrite (b64decode_group _ _ _ _ _ S1 S2 S3 S4).
    rewrite (IH (List.length rest)); [| subst n; cbn; lia | reflexivity | exact Hbs].
    cbn [mbind option_bind]. rewrite B1, B2, B3. reflexivity.
Qed.

Lemma to_bytes_le_length (len : nat) (x : Z) :
  List.length (to_bytes_le len x) = len.
Proof. revert x. induction len; intros x; cbn; [|rewrite IHlen]; reflexivity. Qed.

Lemma to_bytes_le_bytes (len : nat) (x : Z) :
  Forall is_byte (to_bytes_le len x).
Proof.
  revert x. induction len as [|k IH]; intros x; cbn [to_bytes_le];
    constructor; [|apply IH].
  unfold is_byte. change 255 with (Z.ones 8).
  rewrite Z.land_ones by lia. apply Z.mod_pos_bound. lia.
Qed.

Lemma from_to_bytes_le (len : nat) (x : Z) :
  from_bytes_le (to_bytes_le len x) = x mod 2 ^ (8 * Z.of_nat len).
Proof.
  revert x. induction len as [|k IH]; intros x.
  - cbn. rewrite Z.mod_1_r. reflexivity.
  - cbn [to_bytes_le from_bytes_le fold_right].
    fold (from_bytes_le (to_bytes_le k (Z.shiftr x 8))). rewrite IH.
    change 255 with (Z.ones 8). rewrite Z.land_ones by lia.
    rewrite Z.shiftr_div_pow2 by lia.
    replace (8 * Z.of_nat (S k)) with (8 + 8 * Z.of_nat k) by lia.
    rewrite Z.pow_add_r by lia.
    rewrite Z.rem_mul_r by lia. reflexivity.
Qed.

Lemma b64_token_shape (b0 b1 b2 b3 b4 b5 b6 b7 : Z) :
  String.length (b64encode [b0; b1; b2; b3; b4; b5; b6; b7]) = 12%nat.
Proof. reflexivity. Qed.

Lemma encode_id_in_range (n : Z) :
  0 <= n < 2 ^ 64 -> encode_id n = Ok (b64encode (to_bytes_le 8 n)).
Proof.
  intros Hn. unfold encode_id, int_to_bytes.
  replace ((0 <=? n) && (n <? 2 ^ (8 * Z.of_nat 8))) with true; [reflexivity|].
  symmetry. apply andb_true_iff. split; [apply Z.leb_le | apply Z.ltb_lt]; lia.
Qed.

Lemma encode_id_out_of_range (n : Z) :
  ~ 0 <= n < 2 ^ 64 -> encode_id n = Raise OverflowError.
Proof.
  intros Hn. unfold encode_id, int_to_bytes.
  replace ((0 <=? n) && (n <? 2 ^ (8 * Z.of_nat 8))) with false; [reflexivity|].
  symmetry. apply andb_false_iff.
  destruct (Z.leb_spec 0 n); [right; apply Z.ltb_ge; lia | left; reflexivity].
Qed.

(** C6. For every message id of 64 bits, the token exists, decoding it
    (base64, then the 8 bytes as a little-endian integer) gives back the
    id, and the token is 12 characters long. *)
Theorem idtag_roundtrip (n : Z) :
  0 <= n < 2 ^ 64 ->
  exists token,
    encode_id n = Ok token /\
    decode_id token = Some n /\
    String.length token = 12%nat.
Proof.
  intros Hn. exists (b64encode (to_bytes_le 8 n)).
  split; [|split].
  - apply encode_id_in_range, Hn.
  - unfold decode_id.
    rewrite b64decode_b64encode by apply to_bytes_le_bytes.
    cbn [mbind option_bind]. rewrite to_bytes_le_length. cbn [Nat.eqb].
    rewrite from_to_bytes_le. f_equal. apply Z.mod_small. lia.
  - reflexivity.
Qed.

Lemma idtag_roundtrip_witness :
  0 <= 1234567890123456789 < 2 ^ 64 /\
  exists token,
    encode_id 1234567890123456789 = Ok token /\
    decode_id token = Some 1234567890123456789 /\
    String.length token = 12%nat.
Proof. split; [lia | apply idtag_roundtrip; lia]. Defined.

End Base64.

(** ** Text lemmas *)

Section TextLemmas.

Lemma app_cons (c : ascii) (s t : string) :
  String c s +:+ t = String c (s +:+ t).
Proof. reflexivity. Qed.

Lemma app_nil_l (s : string) : EmptyString +:+ s = s.
Proof. reflexivity. Qed.

Lemma app_nil_r (s : string) : s +:+ EmptyString = s.
Proof. induction s as [|c r IH]; [reflexivity|]. rewrite app_cons, IH. reflexivity. Qed.

Lemma app_assoc (s t u : string) : (s +:+ t) +:+ u = s +:+ (t +:+ u).
Proof.
  induction s as [|c r IH]; [reflexivity|]. rewrite !app_cons, IH. reflexivity.
Qed.

Lemma app_length (s t : string) :
  String.length (s +:+ t) = (String.length s + String.length t)%nat.
Proof.
  induction s as [|c r IH]; [reflexivity|].
  rewrite app_cons. cbn [String.length]. rewrite IH. reflexivity.
Qed.

Lemma prefix_char (c d : ascii) (r : string) :
  String.prefix (String c EmptyString) (String d r) = Ascii.eqb d c.
Proof.
  cbn [String.prefix]. destruct (ascii_dec c d) as [->|Hne].
  - rewrite Ascii.eqb_refl. destruct r; reflexivity.
  - symmetry. apply Ascii.eqb_neq. congruence.
Qed.

Lemma prefix_app (s t : string) : String.prefix s (s +:+ t) = true.
Proof.
  induction s as [|c r IH]; [destruct t; reflexivity|].
  rewrite app_cons. cbn [String.prefix].
  destruct (ascii_dec c c); [exact IH | congruence].
Qed.

End TextLemmas.

(** ** Record formatter *)

Section Formatter.

Variable cfg : Config.
Variable env : Env.

Lemma format_tag (x : string) : format "{}]" [x] = Ok (x +:+ "]").
Proof. reflexivity. Qed.

Lemma format_author (n d : string) :
  format "<{}#{}>" [n; d] = Ok ("<" +:+ n +:+ "#" +:+ d +:+ ">").
Proof. reflexivity. Qed.

Lemma format_line (a b c d e : string) :
  format "{} {} {} {} {}" [a; b; c; d; e] =
  Ok (a +:+ " " +:+ b +:+ " " +:+ c +:+ " " +:+ d +:+ " " +:+ e).
Proof. cbn. rewrite app_nil_r. reflexivity. Qed.

Lemma strftime_hms (t : datetime) :
  strftime "[%H:%M:%S]" t = "[" +:+ hms t +:+ "]".
Proof. unfold hms. cbn. rewrite !app_assoc. reflexivity. Qed.

Lemma replace_newline (new s : string) :
  replace nl new s =
  Text.expand (fun c => if Ascii.eqb c "010" then new else String c EmptyString) s.
Proof.
  unfold replace, nl.
  induction s as [|c r IH]; [reflexivity|].
  cbn [replace_go Text.expand]. rewrite prefix_char.
  cbn [String.length Nat.sub]. rewrite IH.
  destruct (Ascii.eqb c "010"); reflexivity.
Qed.

Lemma attachment_fold (f : Attachment -> string) (atts : list Attachment)
    (acc : string) :
  fold_left (fun acc a => acc +:+ f a) atts acc =
  acc +:+ fold_right String.append EmptyString (map f atts).
Proof.
  revert acc. induction atts as [|a atts IH]; intros acc; cbn [fold_left map fold_right].
  - rewrite app_nil_r. reflexivity.
  - rewrite IH, app_assoc. reflexivity.
Qed.

Lemma attachment_lines_segment (atts : list Attachment) :
  attachment_lines atts = attach_segment atts.
Proof.
  unfold attachment_lines, attach_segment.
  destruct atts as [|a atts]; [reflexivity|].
  rewrite (attachment_fold (fun a => nl +:+ "(attach) " +:+ url a)).
  reflexivity.
Qed.

Lemma two_digits_length (n : Z) :
  0 <= n < 100 -> String.length (two_digits n) = 2%nat.
Proof.
  intros Hn.
  assert (Hall : forallb (fun n => Nat.eqb (String.length (two_digits n)) 2)
                   (below 100) = true) by (vm_compute; reflexivity).
  pose proof (below_spec 100 _ Hall n ltac:(lia)) as H. cbv beta in H.
  apply Nat.eqb_eq in H. exact H.
Qed.

Lemma hms_length (t : datetime) :
  valid_clock t -> String.length (hms t) = 8%nat.
Proof.
  intros (Hh & Hm & Hs). unfold hms.
  rewrite !app_length, !two_digits_length by lia. reflexivity.
Qed.

Lemma sextet_not_colon (s : Z) :
  is_sextet s = true -> Ascii.eqb (b64_char s) ":" = false.
Proof.
  intros H. unfold is_sextet in H.
  apply andb_true_iff in H as [H1%Z.leb_le H2%Z.ltb_lt].
  assert (Hall : forallb (fun s => negb (Ascii.eqb (b64_char s) ":"))
                   (below 64) = true) by (vm_compute; reflexivity).
  pose proof (below_spec 64 _ Hall s ltac:(lia)) as Hs. cbv beta in Hs.
  apply negb_true_iff in Hs. exact Hs.
Qed.

(** The token of an id never starts with the edit mark. *)
Lemma token_not_marked (n : Z) (token : string) :
  encode_id n = Ok token -> String.prefix "E:" token = false.
Proof.
  unfold encode_id, int_to_bytes.
  destruct ((0 <=? n) && (n <? 2 ^ (8 * Z.of_nat 8))); [|discriminate].
  intros [= <-]. cbn [to_bytes_le].
  pose proof (to_bytes_le_bytes 2 n) as Hb. cbn [to_bytes_le] in Hb.
  apply Forall_cons_1 in Hb as [Ha Hb]. apply Forall_cons_1 in Hb as [Hb _].
  destruct (sextets_pair _ _ Ha Hb) as (_&S2&_).
  apply sextet_not_colon in S2. unfold sx2 in S2.
  cbn [b64encode String.prefix].
  destruct (ascii_dec "E" _); [|reflexivity].
  destruct (ascii_dec ":" _) as [E|]; [|reflexivity].
  rewrite <- E in S2. discriminate.
Qed.

(** The line of a message whose id fits 8 bytes. *)
Lemma make_message_line (m : Message) :
  0 <= id m < 2 ^ 64 ->
  make_message cfg env m =
  Ok (log_line cfg env m (b64encode (to_bytes_le 8 (id m)))).
Proof.
  intros Hid. unfold make_message.
  rewrite (encode_id_in_range _ Hid). cbn [mbind result_bind].
  rewrite format_tag. cbn [mbind result_bind].
  rewrite format_author. cbn [mbind result_bind].
  rewrite format_line, strftime_hms, replace_newline, attachment_lines_segment.
  f_equal. unfold log_line, idtag, under_policy, effective_time,
    escape_newlines, newline_marker.
  destruct (edited_at m) as [t|]; cbn [default];
    rewrite ?app_assoc; reflexivity.
Qed.

(** C1. For a message whose id has 64 bits, the formatted line is
    [[<idtag>] [<HH:MM:SS>] <name#discriminator> <content> <attachments>]:
    the idtag starts with [E:] iff the message has an edit timestamp; the
    clock is 8 characters for a valid time of day; the content is the
    clean content with every newline replaced by a newline and the
    10-character marker; the attachment segment is one [\n(attach) <url>]
    per attachment in the message's order, and empty without attachments. *)
Theorem make_message_shape (m : Message) :
  0 <= id m < 2 ^ 64 ->
  exists token,
    encode_id (id m) = Ok token /\
    make_message cfg env m = Ok (log_line cfg env m token) /\
    (String.prefix "E:" (idtag m token) = true <-> edited_at m <> None) /\
    (valid_clock (under_policy cfg env (effective_time m)) ->
     String.length (hms (under_policy cfg env (effective_time m))) = 8%nat) /\
    String.length newline_marker = 10%nat /\
    (attachments m = [] -> attach_segment (attachments m) = EmptyString).
Proof.
  intros Hid. pose proof (encode_id_in_range _ Hid) as Henc.
  exists (b64encode (to_bytes_le 8 (id m))).
  split; [exact Henc|]. split; [|split; [|split; [|split]]].
  - apply make_message_line, Hid.
  - unfold idtag. destruct (edited_at m) as [t|].
    + split; [discriminate | intros _; apply prefix_app].
    + rewrite app_nil_l, (token_not_marked _ _ Henc).
      split; [discriminate | congruence].
  - apply hms_length.
  - reflexivity.
  - intros ->. reflexivity.
Qed.

End Formatter.

(** ** Path router *)

Section Router.

Variable cfg : Config.
Variable env : Env.

Lemma strftime_F (t : datetime) : strftime "%F" t = ymd t.
Proof. unfold ymd. cbn. rewrite ?app_nil_r, ?app_assoc. reflexivity. Qed.

Lemma format_guild_path (root g gid c cid date : string) :
  format "{}/{}-{}/#{}-{}/{}.log" [root; g; gid; c; cid; date] =
  Ok (root +:+ "/" +:+ g +:+ "-" +:+ gid +:+ "/#" +:+ c +:+ "-" +:+ cid
        +:+ "/" +:+ date +:+ ".log").
Proof. reflexivity. Qed.

Lemma format_dm_path (root n nid date : string) :
  format "{}/DM/{}-{}/{}.log" [root; n; nid; date] =
  Ok (root +:+ "/DM/" +:+ n +:+ "-" +:+ nid +:+ "/" +:+ date +:+ ".log").
Proof. reflexivity. Qed.

(** The router never raises: it returns a path, or None for a channel of
    another class. *)
Lemma make_filename_total (m : Message) :
  make_filename cfg m =
  Ok (match channel m with
      | TextChannel g name cid =>
          Some (guild_path cfg g name cid (ymd (effective_time m)))
      | DMChannel _ _ =>
          Some (dm_path cfg (user_name (author m)) (user_id (author m))
                  (ymd (effective_time m)))
      | GroupChannel name cid =>
          Some (dm_path cfg name cid (ymd (effective_time m)))
      | OtherChannel _ _ => None
      end).
Proof.
  unfold make_filename. rewrite strftime_F.
  replace (match edited_at m with Some t => t | None => created_at m end)
    with (effective_time m) by (unfold effective_time; destruct (edited_at m); reflexivity).
  destruct (channel m); [rewrite format_guild_path | rewrite format_dm_path
                        | rewrite format_dm_path | ]; reflexivity.
Qed.

(** C2, as amended.  Under the UTC policy the routed path carries the
    effective date (edit timestamp if present, else creation timestamp) as
    [YYYY-MM-DD]; it is [<root>/<guild>-<id>/#<channel>-<id>/<date>.log] for
    a guild channel, [<root>/DM/<author>-<id>/<date>.log] for a direct
    message, where the author is the counterpart when the counterpart
    wrote the message, and [<root>/DM/<group>-<id>/<date>.log] for a group
    message, every name sanitized. *)
Theorem make_filename_route (m : Message) :
  USE_LOCALTIME cfg = false ->
  make_filename cfg m = Ok (route_by_author cfg env m) /\
  (forall counterpart cid,
      channel m = DMChannel counterpart cid -> author m = counterpart ->
      route_by_author cfg env m = route_spec cfg env m) /\
  ((forall counterpart cid, channel m <> DMChannel counterpart cid) ->
   route_by_author cfg env m = route_spec cfg env m).
Proof.
  intros Hutc. split; [|split].
  - rewrite make_filename_total. f_equal.
    unfold route_by_author, route_spec, route_date, under_policy.
    rewrite Hutc. destruct (channel m); reflexivity.
  - intros r cid Hch Hau. unfold route_by_author, route_spec.
    rewrite Hch, Hau. reflexivity.
  - intros Hch. unfold route_by_author.
    destruct (channel m) as [| r cid | |]; try reflexivity.
    destruct (Hch r cid eq_refl).
Qed.

End Router.

Lemma make_filename_route_witness :
  USE_LOCALTIME Sample.utc_cfg = false /\
  (make_filename Sample.utc_cfg Sample.dm_received =
     Ok (route_by_author Sample.utc_cfg Sample.env Sample.dm_received) /\
   (forall counterpart cid,
       channel Sample.dm_received = DMChannel counterpart cid ->
       author Sample.dm_received = counterpart ->
       route_by_author Sample.utc_cfg Sample.env Sample.dm_received =
       route_spec Sample.utc_cfg Sample.env Sample.dm_received) /\
   ((forall counterpart cid,
        channel Sample.dm_received <> DMChannel counterpart cid) ->
    route_by_author Sample.utc_cfg Sample.env Sample.dm_received =
    route_spec Sample.utc_cfg Sample.env Sample.dm_received)).
Proof.
  split; [reflexivity|].
  apply (make_filename_route Sample.utc_cfg Sample.env Sample.dm_received).
  reflexivity.
Defined.

(** C2 as stated fails in two ways.  A direct message written by the logging
    account itself is filed under that account, not under the counterpart;
    and with the localtime policy on, a message stored at 23:30 UTC in a zone
    two hours ahead is filed under the UTC date, not the local one. *)
Lemma make_filename_not_route_spec :
  make_filename Sample.utc_cfg Sample.dm_sent =
    Ok (Some "logs/DM/logger-9/2023-05-01.log") /\
  route_spec Sample.utc_cfg Sample.env Sample.dm_sent =
    Some "logs/DM/alice-5/2023-05-01.log" /\
  make_filename Sample.utc_cfg Sample.dm_sent <>
    Ok (route_spec Sample.utc_cfg Sample.env Sample.dm_sent) /\
  make_filename Sample.local_cfg Sample.late_hello =
    Ok (Some "logs/Test Guild-1/#general-2/2023-05-01.log") /\
  route_spec Sample.local_cfg Sample.env Sample.late_hello =
    Some "logs/Test Guild-1/#general-2/2023-05-02.log" /\
  make_filename Sample.local_cfg Sample.late_hello <>
    Ok (route_spec Sample.local_cfg Sample.env Sample.late_hello).
Proof.
  repeat split; try (vm_compute; reflexivity); vm_compute; discriminate.
Qed.

(** ** Append-only writer *)

Section Writer.

Variable cfg : Config.
Variable env : Env.

Lemma format_session (date hour : string) :
  format ("Session start: {} {}:00" +:+ nl) [date; hour] =
  Ok ("Session start: " +:+ date +:+ " " +:+ hour +:+ ":00" +:+ nl).
Proof. reflexivity. Qed.

Lemma write_none (entry : string) (fs : FS) :
  write cfg env None entry fs = (Raise TypeError, fs).
Proof. reflexivity. Qed.

Lemma existsb_eqb_false (x : string) (l : list string) :
  existsb (String.eqb x) l = false -> x ∉ (list_to_set l : gset string).
Proof.
  intros H Hin. apply elem_of_list_to_set, list_elem_of_In in Hin.
  assert (existsb (String.eqb x) l = true); [|congruence].
  apply existsb_exists. exists x. split; [exact Hin | apply String.eqb_refl].
Qed.

(** An accepted write creates the directories and leaves, in the file, the
    old text (or the marker line for a new file) followed by the entry and
    a newline; no other file changes. *)
Lemma write_accepted (filename entry : string) (fs : FS) :
  accepts filename fs = true ->
  write cfg env (Some filename) entry fs =
  (Ok tt, after_append cfg env filename entry fs).
Proof.
  unfold accepts. rewrite !andb_true_iff, !negb_true_iff.
  intros ((((Hd & Hf) & Ha) & Hdir) & Hself).
  unfold write, io_bind, makedirs. rewrite Hd, Hf, Ha.
  unfold path_exists, open_append, is_dir, is_file in *. cbn [dirs files].
  apply bool_decide_eq_false in Hdir.
  apply existsb_eqb_false in Hself.
  rewrite (bool_decide_eq_false_2 (filename ∈ dirs fs ∪ _))
    by (rewrite elem_of_union; tauto).
  rewrite orb_false_r. unfold after_append, appended.
  destruct (files fs !! filename) as [old|] eqn:Hold.
  - rewrite bool_decide_eq_true_2 by (apply elem_of_dom; eauto).
    cbn [negb]. unfold io_ret, file_write. cbn [dirs files].
    rewrite Hold. reflexivity.
  - rewrite bool_decide_eq_false_2
      by (rewrite elem_of_dom, Hold; intros [? ?]; discriminate).
    cbn [negb]. rewrite format_session. unfold io_lift, file_write.
    cbn [dirs files]. rewrite !lookup_insert_eq. cbn [default].
    rewrite !insert_insert_eq. reflexivity.
Qed.

(** The marker is put exactly when the path did not exist. *)
Lemma write_new_file (filename entry : string) (fs : FS) :
  accepts filename fs = true -> files fs !! filename = None ->
  files (snd (write cfg env (Some filename) entry fs)) !! filename =
  Some (session_start cfg env +:+ entry +:+ nl).
Proof.
  intros Hacc Hnew. rewrite write_accepted by exact Hacc.
  cbn [snd after_append files]. rewrite lookup_insert_eq, Hnew. reflexivity.
Qed.

Lemma write_existing_file (filename entry old : string) (fs : FS) :
  accepts filename fs = true -> files fs !! filename = Some old ->
  files (snd (write cfg env (Some filename) entry fs)) !! filename =
  Some (old +:+ entry +:+ nl).
Proof.
  intros Hacc Hold. rewrite write_accepted by exact Hacc.
  cbn [snd after_append files]. rewrite lookup_insert_eq, Hold. reflexivity.
Qed.

Lemma write_other_file (filename entry other : string) (fs : FS) :
  accepts filename fs = true -> other <> filename ->
  files (snd (write cfg env (Some filename) entry fs)) !! other =
  files fs !! other.
Proof.
  intros Hacc Hne. rewrite write_accepted by exact Hacc.
  cbn [snd after_append files]. rewrite lookup_insert_ne by congruence.
  reflexivity.
Qed.

(** The marker as the program prints it: the month twice, then the day
    and the two-digit year, separated by slashes. *)
Lemma session_start_text :
  let t := if USE_LOCALTIME cfg then now env else utcnow env in
  session_start cfg env =
  "Session start: " +:+ four_digits (year t) +:+ "-" +:+ two_digits (month t)
    +:+ "-" +:+ two_digits (month t) +:+ "/" +:+ two_digits (day t) +:+ "/"
    +:+ two_digits (year t mod 100) +:+ " "
    +:+ Text.str (if daylight env =? 0 then 10 else 11) +:+ ":00" +:+ nl.
Proof.
  cbv zeta. unfold session_start. cbn.
  rewrite ?app_nil_r. repeat (rewrite app_cons || rewrite app_assoc).
  reflexivity.
Qed.

End Writer.

(** C3, at a failing input: the first append to a new path, on 2023-05-01
    under the UTC policy.  The file then holds one marker line and the
    entry, but the marker reads [2023-05-05/01/23] where the specified form
    [Session start: <YYYY-MM-DD> <H>:00] gives [2023-05-01]; a second append
    adds the entry alone. *)
Theorem write_session_marker_date :
  let path := "logs/a/2023-05-01.log" in
  let fs1 := snd (write Sample.utc_cfg Sample.env (Some path) "one" Sample.empty_disk) in
  let fs2 := snd (write Sample.utc_cfg Sample.env (Some path) "two" fs1) in
  files fs1 !! path =
    Some ("Session start: 2023-05-05/01/23 10:00" +:+ nl +:+ "one" +:+ nl) /\
  session_start_spec Sample.utc_cfg Sample.env =
    "Session start: 2023-05-01 10:00" +:+ nl /\
  session_start Sample.utc_cfg Sample.env <>
    session_start_spec Sample.utc_cfg Sample.env /\
  files fs2 !! path =
    Some ("Session start: 2023-05-05/01/23 10:00" +:+ nl +:+ "one" +:+ nl
            +:+ "two" +:+ nl).
Proof.
  cbv zeta. repeat split; try (vm_compute; reflexivity).
  vm_compute. discriminate.
Qed.

(** ** Message action and event handlers *)

Section Handlers.

Variable cfg : Config.
Variable bot : Platform.

Lemma ignored_in (g : Guild) :
  In (guild_id g) (IGNORE_SERVERS cfg) -> ignored cfg (Some g) = true.
Proof.
  intros Hin. cbn [ignored]. apply existsb_exists.
  exists (guild_id g). split; [exact Hin | apply Z.eqb_refl].
Qed.

Lemma handle_message_ignored (env : Env) (m : Message) (fs : FS) :
  ignored cfg (guild m) = true -> handle_message cfg env m fs = (Ok tt, fs).
Proof. intros H. unfold handle_message. rewrite H. reflexivity. Qed.

Lemma handle_message_pipeline (env : Env) (m : Message) (fs : FS)
    (filename : option string) (entry : string) :
  ignored cfg (guild m) = false ->
  make_filename cfg m = Ok filename ->
  make_message cfg env m = Ok entry ->
  handle_message cfg env m fs = write cfg env filename entry fs.
Proof.
  intros Hi Hf Hm. unfold handle_message, io_bind, io_lift.
  rewrite Hi, Hf, Hm. reflexivity.
Qed.

Lemma handle_message_accepted (env : Env) (m : Message) (fs : FS)
    (filename entry : string) :
  ignored cfg (guild m) = false ->
  make_filename cfg m = Ok (Some filename) ->
  make_message cfg env m = Ok entry ->
  accepts filename fs = true ->
  handle_message cfg env m fs = (Ok tt, after_append cfg env filename entry fs).
Proof.
  intros Hi Hf Hm Ha.
  rewrite (handle_message_pipeline env m fs _ _ Hi Hf Hm).
  apply write_accepted, Ha.
Qed.

Lemma make_message_total (env : Env) (m : Message) :
  (exists entry, make_message cfg env m = Ok entry) \/
  make_message cfg env m = Raise OverflowError.
Proof.
  unfold make_message, encode_id, int_to_bytes.
  destruct ((0 <=? id m) && (id m <? 2 ^ (8 * Z.of_nat 8))).
  - left. cbn [fmap result_fmap mbind result_bind].
    rewrite format_tag. cbn [mbind result_bind].
    rewrite format_author. cbn [mbind result_bind].
    rewrite format_line. eauto.
  - right. reflexivity.
Qed.

(** C4, as amended.  For a message whose channel is none of the three
    supported classes, the router returns None and raises nothing; the
    handler changes nothing on the file system; and unless the ignore
    filter drops the message, a message with a 64-bit id makes the handler
    fail with the TypeError that the writer raises on the missing path. *)
Theorem unsupported_channel_no_write (env : Env) (m : Message) (fs : FS) :
  supported (channel m) = false ->
  make_filename cfg m = Ok None /\
  snd (handle_message cfg env m fs) = fs /\
  (ignored cfg (guild m) = false -> 0 <= id m < 2 ^ 64 ->
   handle_message cfg env m fs = (Raise TypeError, fs)).
Proof.
  intros Hs.
  assert (Hroute : make_filename cfg m = Ok None).
  { rewrite make_filename_total. destruct (channel m); try discriminate.
    reflexivity. }
  split; [exact Hroute|]. split.
  - unfold handle_message, io_bind, io_lift. rewrite Hroute.
    destruct (ignored cfg (guild m)); [reflexivity|].
    destruct (make_message_total env m) as [[entry ->] | ->]; reflexivity.
  - intros Hi Hid.
    pose proof (make_message_line cfg env m Hid) as Hm.
    rewrite (handle_message_pipeline env m fs _ _ Hi Hroute Hm).
    reflexivity.
Qed.

Lemma channel_guild_attribute_some (ch : Channel) (g : Guild) :
  channel_guild ch = Some g -> channel_guild_attribute ch = Ok (Some g).
Proof. destruct ch; cbn; congruence. Qed.

(** The raw edit event of a cached message does nothing: the direct edit
    event is the one that logs it. *)
Lemma raw_edit_cached (env : Env) (payload : RawMessageUpdateEvent) (fs : FS) :
  _get_message bot (message_id payload) <> None ->
  on_raw_message_edit cfg env bot payload fs = (Ok tt, fs).
Proof.
  intros H. unfold on_raw_message_edit.
  destruct (_get_message bot (message_id payload)); [reflexivity|].
  congruence.
Qed.

(** A raw edit event whose channel the connection does not resolve is
    dropped. *)
Lemma raw_edit_unresolved_channel (env : Env) (payload : RawMessageUpdateEvent)
    (fs : FS) :
  get_channel bot (channel_id payload) = None ->
  on_raw_message_edit cfg env bot payload fs = (Ok tt, fs).
Proof.
  intros H. unfold on_raw_message_edit. rewrite H.
  destruct (_get_message bot (message_id payload)); reflexivity.
Qed.

(** A raw edit event of an uncached message in a private channel stops at
    the guild test of line 195. *)
Lemma raw_edit_private_channel (env : Env) (payload : RawMessageUpdateEvent)
    (ch : Channel) (fs : FS) :
  _get_message bot (message_id payload) = None ->
  get_channel bot (channel_id payload) = Some ch ->
  channel_guild_attribute ch = Raise AttributeError ->
  on_raw_message_edit cfg env bot payload fs = (Raise AttributeError, fs).
Proof.
  intros Hc Hch Hg. unfold on_raw_message_edit, io_bind, io_lift.
  rewrite Hc, Hch, Hg. reflexivity.
Qed.

(** A raw edit event alone runs the message action at most once, and
    changes nothing when it does not run it. *)
Lemma raw_edit_at_most_once (env : Env) (payload : RawMessageUpdateEvent)
    (fs : FS) :
  on_raw_message_edit cfg env bot payload fs = (Ok tt, fs) \/
  (exists e, on_raw_message_edit cfg env bot payload fs = (Raise e, fs)) \/
  exists m, on_raw_message_edit cfg env bot payload fs =
            handle_message cfg env m fs.
Proof.
  unfold on_raw_message_edit, io_bind, io_lift.
  destruct (_get_message bot (message_id payload)); [left; reflexivity|].
  destruct (get_channel bot (channel_id payload)) as [ch|]; [|left; reflexivity].
  destruct (channel_guild_attribute ch) as [g|e];
    [|right; left; exists e; reflexivity].
  destruct (ignored cfg g); [left; reflexivity|].
  destruct (get_message bot ch (message_id payload)) as [[m|]|e].
  - right; right; exists m; reflexivity.
  - left; reflexivity.
  - right; left; exists e; reflexivity.
Qed.

(** C9.  An event whose conversation belongs to a guild whose id is in the
    ignore list leaves the file system as it was, directories included,
    and every listener of the event returns normally. *)
Theorem ignored_guild_no_effect (env : Env) (ev : Event) (ch : Channel)
    (g : Guild) (fs : FS) :
  event_channel bot ev = Some ch ->
  channel_guild ch = Some g ->
  In (guild_id g) (IGNORE_SERVERS cfg) ->
  dispatch cfg env bot ev fs =
  (map (fun _ => Ok tt) (listeners cfg env bot ev), fs).
Proof.
  intros Hch Hg Hin. pose proof (ignored_in g Hin) as Hi.
  destruct ev as [m | before after | payload]; cbn [event_channel] in Hch.
  - injection Hch as <-.
    unfold dispatch, listeners, on_message. cbn [run_listeners map].
    rewrite handle_message_ignored by (unfold guild; rewrite Hg; exact Hi).
    reflexivity.
  - injection Hch as <-.
    unfold dispatch, listeners, on_message_edit_pass, on_message_edit.
    cbn [run_listeners map io_ret].
    rewrite handle_message_ignored by (unfold guild; rewrite Hg; exact Hi).
    reflexivity.
  - unfold dispatch, listeners, on_raw_message_edit. cbn [run_listeners map].
    destruct (_get_message bot (message_id payload)); [reflexivity|].
    rewrite Hch. unfold io_bind, io_lift.
    rewrite (channel_guild_attribute_some ch g Hg), Hi. reflexivity.
Qed.

End Handlers.

(** ** The scenarios of the specification, and instances of the theorems *)

Section Scenarios.

Import Sample.

(** The end-to-end scenario: guild "Test Guild" (1), channel "general" (2),
    alice#0001, created 2023-05-01 10:00:00 UTC, not edited. *)
Example hello_routed :
  make_filename utc_cfg hello =
  Ok (Some "logs/Test Guild-1/#general-2/2023-05-01.log").
Proof. vm_compute. reflexivity. Qed.

Example hello_formatted :
  make_message utc_cfg env hello =
  Ok "[FYHpffQQIhE=] [10:00:00] <alice#0001> hello world ".
Proof. vm_compute. reflexivity. Qed.

(** An edited message of two lines with two attachments. *)
Example edited_formatted :
  make_message utc_cfg env edited =
  Ok ("[E:FYHpffQQIhE=] [23:30:00] <alice#0001> line1" +:+ nl
        +:+ "(newline) line2 " +:+ nl +:+ "(attach) http://x/a.png" +:+ nl
        +:+ "(attach) http://x/b.png").
Proof. vm_compute. reflexivity. Qed.

(** The token uses the standard alphabet, not the URL-safe one. *)
Example token_standard_alphabet :
  encode_id (2 ^ 64 - 1) = Ok "//////////8=".
Proof. vm_compute. reflexivity. Qed.

Example id_out_of_range :
  encode_id (2 ^ 64) = Raise OverflowError /\
  encode_id (-1) = Raise OverflowError.
Proof. split; vm_compute; reflexivity. Qed.

End Scenarios.

Lemma make_message_shape_witness :
  0 <= id Sample.edited < 2 ^ 64 /\
  exists token,
    encode_id (id Sample.edited) = Ok token /\
    make_message Sample.local_cfg Sample.env Sample.edited =
      Ok (log_line Sample.local_cfg Sample.env Sample.edited token) /\
    (String.prefix "E:" (idtag Sample.edited token) = true <->
     edited_at Sample.edited <> None) /\
    (valid_clock (under_policy Sample.local_cfg Sample.env
                    (effective_time Sample.edited)) ->
     String.length (hms (under_policy Sample.local_cfg Sample.env
                           (effective_time Sample.edited))) = 8%nat) /\
    String.length newline_marker = 10%nat /\
    (attachments Sample.edited = [] ->
     attach_segment (attachments Sample.edited) = EmptyString).
Proof.
  split; [vm_compute; split; [discriminate | reflexivity]|].
  apply (make_message_shape Sample.local_cfg Sample.env Sample.edited).
  vm_compute. split; [discriminate | reflexivity].
Defined.

(** C4 as stated fails: for a message in a channel of another class the
    router raises nothing and returns None, and the error of the handler is
    the TypeError of the writer. *)
Lemma unsupported_channel_routed_silently :
  supported (channel Sample.voice) = false /\
  make_filename Sample.utc_cfg Sample.voice = Ok None /\
  (forall e, make_filename Sample.utc_cfg Sample.voice <> Raise e) /\
  handle_message Sample.utc_cfg Sample.env Sample.voice Sample.empty_disk =
    (Raise TypeError, Sample.empty_disk).
Proof.
  split; [reflexivity|]. split; [vm_compute; reflexivity|].
  split; [intros e; vm_compute; discriminate|]. vm_compute. reflexivity.
Qed.

Lemma unsupported_channel_no_write_witness :
  supported (channel Sample.voice) = false /\
  (make_filename Sample.utc_cfg Sample.voice = Ok None /\
   snd (handle_message Sample.utc_cfg Sample.env Sample.voice
          Sample.empty_disk) = Sample.empty_disk /\
   (ignored Sample.utc_cfg (guild Sample.voice) = false ->
    0 <= id Sample.voice < 2 ^ 64 ->
    handle_message Sample.utc_cfg Sample.env Sample.voice Sample.empty_disk =
    (Raise TypeError, Sample.empty_disk))).
Proof.
  split; [reflexivity|].
  apply (unsupported_channel_no_write Sample.utc_cfg Sample.env Sample.voice
           Sample.empty_disk).
  reflexivity.
Defined.

Lemma ignored_guild_no_effect_witness :
  event_channel (Sample.uncached Sample.muted) (MessageEvent Sample.muted) =
    Some (channel Sample.muted) /\
  channel_guild (channel Sample.muted) = Some Sample.muted_guild /\
  In (guild_id Sample.muted_guild) (IGNORE_SERVERS Sample.utc_cfg) /\
  dispatch Sample.utc_cfg Sample.env (Sample.uncached Sample.muted)
    (MessageEvent Sample.muted) Sample.empty_disk =
  (map (fun _ => Ok tt)
     (listeners Sample.utc_cfg Sample.env (Sample.uncached Sample.muted)
        (MessageEvent Sample.muted)), Sample.empty_disk).
Proof.
  split; [reflexivity|]. split; [reflexivity|]. split; [left; reflexivity|].
  apply (ignored_guild_no_effect Sample.utc_cfg (Sample.uncached Sample.muted)
           Sample.env (MessageEvent Sample.muted) (channel Sample.muted)
           Sample.muted_guild Sample.empty_disk);
    [reflexivity | reflexivity | left; reflexivity].
Defined.

(** The file system accepts the routed path of the sample direct message,
    and the message action then appends its entry after the marker. *)
Example dm_received_logged :
  accepts "logs/DM/alice-5/2023-05-01.log" Sample.empty_disk = true /\
  files (snd (handle_message Sample.utc_cfg Sample.env Sample.dm_received
                Sample.empty_disk)) !! "logs/DM/alice-5/2023-05-01.log" =
  Some ("Session start: 2023-05-05/01/23 10:00" +:+ nl
          +:+ "[FYHpffQQIhE=] [10:00:00] <alice#0001> hello world " +:+ nl).
Proof. split; vm_compute; reflexivity. Qed.

(** * Paths, files and whole runs *)

(** ** Paths *)

Section Paths.

Lemma all_app (p : ascii -> bool) (a b : string) :
  Text.all p (a +:+ b) = Text.all p a && Text.all p b.
Proof.
  induction a as [|c r IH]; [reflexivity|].
  rewrite app_cons. cbn [Text.all]. rewrite IH, andb_assoc. reflexivity.
Qed.

Lemma all_impl (p q : ascii -> bool) (s : string) :
  (forall c, p c = true -> q c = true) ->
  Text.all p s = true -> Text.all q s = true.
Proof.
  intros Hpq. induction s as [|c r IH]; [reflexivity|].
  cbn [Text.all]. rewrite !andb_true_iff. intros [Hc Hr]. auto.
Qed.

Lemma all_mem (p : ascii -> bool) (s : string) :
  (forall c, Text.mem c s -> p c = true) -> Text.all p s = true.
Proof.
  unfold Text.mem, Text.chars.
  induction s as [|c r IH]; intros H; [reflexivity|].
  cbn [Text.all]. cbn [list_ascii_of_string In] in H.
  rewrite (H c) by auto. apply IH. auto.
Qed.

Lemma clean_filename_no_slash (s : string) : no_slash (clean_filename s) = true.
Proof.
  apply all_mem. intros c Hc.
  rewrite clean_filename_filter in Hc. apply filter_mem in Hc as [_ Hc].
  apply negb_true_iff in Hc. apply negb_true_iff.
  unfold is_slash. destruct (Ascii.eqb_spec c "/") as [->|]; [|reflexivity].
  discriminate.
Qed.

Lemma uint_decimal (d : Decimal.uint) :
  Text.all is_decimal (DecimalString.NilEmpty.string_of_uint d) = true.
Proof. induction d; cbn; auto. Qed.

Lemma str_decimal (n : Z) : Text.all is_decimal (Text.str n) = true.
Proof.
  unfold Text.str, DecimalString.NilZero.string_of_int,
    DecimalString.NilZero.string_of_uint.
  destruct (Z.to_int n) as [d|d]; destruct d; cbn [Text.all];
    try reflexivity; try apply (uint_decimal (_ d));
    cbn; apply uint_decimal.
Qed.

Lemma str_nonempty (n : Z) : Text.str n <> EmptyString.
Proof.
  unfold Text.str, DecimalString.NilZero.string_of_int,
    DecimalString.NilZero.string_of_uint.
  destruct (Z.to_int n) as [d|d]; destruct d; discriminate.
Qed.

Lemma decimal_no_slash (s : string) :
  Text.all is_decimal s = true -> no_slash s = true.
Proof.
  apply all_impl. intros c Hc. unfold is_slash.
  destruct (Ascii.eqb_spec c "/") as [->|]; [discriminate | reflexivity].
Qed.

Lemma decimal_no_newline (s : string) :
  Text.all is_decimal s = true -> no_newline s = true.
Proof.
  apply all_impl. intros c Hc.
  destruct (Ascii.eqb_spec c "010") as [->|]; [discriminate | reflexivity].
Qed.

Lemma zfill_decimal (w : nat) (s : string) :
  Text.all is_decimal s = true -> Text.all is_decimal (Text.zfill w s) = true.
Proof.
  intros Hs. unfold Text.zfill. rewrite all_app, Hs, andb_true_r.
  induction (w - String.length s)%nat as [|k IH]; [reflexivity|exact IH].
Qed.

Lemma ymd_decimal (t : datetime) : Text.all is_decimal (ymd t) = true.
Proof.
  unfold ymd, four_digits, two_digits.
  rewrite !all_app, !zfill_decimal by apply str_decimal. reflexivity.
Qed.

Lemma hms_no_newline (t : datetime) : no_newline (hms t) = true.
Proof.
  unfold hms, two_digits, no_newline.
  rewrite !all_app.
  rewrite !(decimal_no_newline _ (zfill_decimal _ _ (str_decimal _))).
  reflexivity.
Qed.

Lemma day_file_no_slash (m : Message) : no_slash (day_file m) = true.
Proof.
  unfold day_file, no_slash. rewrite all_app.
  rewrite (decimal_no_slash _ (ymd_decimal _)). reflexivity.
Qed.

Lemma head_to_last_slash_app (a r : string) :
  head_to_last_slash (a +:+ String "/" r) =
  a +:+ String "/" (head_to_last_slash r).
Proof.
  induction a as [|c a IH]; [reflexivity|].
  rewrite !app_cons. cbn [head_to_last_slash]. rewrite IH.
  replace (is_empty (a +:+ String "/" (head_to_last_slash r))) with false
    by (destruct a; reflexivity).
  rewrite orb_true_r. reflexivity.
Qed.

Lemma head_to_last_slash_none (s : string) :
  no_slash s = true -> head_to_last_slash s = EmptyString.
Proof.
  induction s as [|c r IH]; [reflexivity|].
  unfold no_slash. cbn [Text.all head_to_last_slash].
  rewrite andb_true_iff, negb_true_iff. intros [Hc Hr].
  rewrite (IH Hr), Hc. reflexivity.
Qed.

(** A non-empty string that does not end with a slash ends with another
    character. *)
Lemma last_char (s : string) :
  s <> EmptyString -> ends_with_slash s = false ->
  exists a c, s = a +:+ String c EmptyString /\ is_slash c = false.
Proof.
  induction s as [|c r IH]; [congruence|]. intros _ He.
  destruct r as [|d r'].
  - exists EmptyString, c. split; [reflexivity | exact He].
  - destruct IH as (a & e & -> & Hs); [discriminate | exact He |].
    exists (String c a), e. split; [reflexivity | exact Hs].
Qed.

Lemma rstrip_slash_last (a : string) (c : ascii) :
  is_slash c = false ->
  rstrip_slash ((a +:+ String c EmptyString) +:+ "/") = a +:+ String c EmptyString.
Proof.
  intros Hc. induction a as [|d a IH].
  - change (rstrip_slash (String c (String "/" EmptyString)) = String c EmptyString).
    cbn -[is_slash]. rewrite Hc. reflexivity.
  - rewrite !app_cons. cbn [rstrip_slash]. rewrite IH.
    replace (is_empty (a +:+ String c EmptyString)) with false
      by (destruct a; reflexivity).
    rewrite andb_false_r. reflexivity.
Qed.

Lemma not_all_slash_last (a b : string) (c : ascii) :
  is_slash c = false -> Text.all is_slash ((a +:+ String c EmptyString) +:+ b) = false.
Proof.
  intros Hc. rewrite !all_app. cbn [Text.all]. rewrite Hc.
  rewrite andb_false_r. reflexivity.
Qed.

(** [os.path.dirname] of a file name joined to a directory. *)
Lemma dirname_join (d file : string) :
  d <> EmptyString -> ends_with_slash d = false -> no_slash file = true ->
  dirname (d +:+ "/" +:+ file) = d.
Proof.
  intros Hd He Hf. destruct (last_char d Hd He) as (a & c & -> & Hc).
  unfold dirname.
  change ((a +:+ String c EmptyString) +:+ "/" +:+ file)
    with ((a +:+ String c EmptyString) +:+ String "/" file).
  rewrite head_to_last_slash_app, (head_to_last_slash_none _ Hf).
  change (String "/" EmptyString) with ("/" : string).
  rewrite (not_all_slash_last a "/" c Hc).
  replace (is_empty ((a +:+ String c EmptyString) +:+ "/")) with false
    by (destruct a; reflexivity).
  cbn [negb andb]. apply rstrip_slash_last, Hc.
Qed.

Lemma ends_with_slash_app (a b : string) :
  b <> EmptyString -> ends_with_slash (a +:+ b) = ends_with_slash b.
Proof.
  intros Hb. induction a as [|c a IH]; [reflexivity|].
  rewrite app_cons. cbn [ends_with_slash]. rewrite IH.
  destruct (a +:+ b) eqn:E; [|reflexivity].
  destruct a; [exfalso; exact (Hb E) | discriminate].
Qed.

Lemma no_slash_ends (s : string) :
  no_slash s = true -> ends_with_slash s = false.
Proof.
  induction s as [|c r IH]; [reflexivity|].
  unfold no_slash. cbn [Text.all]. rewrite andb_true_iff, negb_true_iff.
  intros [Hc Hr]. cbn [ends_with_slash]. destruct r; [exact Hc | apply IH, Hr].
Qed.

Lemma str_ends (a : string) (n : Z) :
  a +:+ Text.str n <> EmptyString /\ ends_with_slash (a +:+ Text.str n) = false.
Proof.
  pose proof (str_nonempty n) as Hn. split.
  - destruct a; [exact Hn | discriminate].
  - rewrite ends_with_slash_app by exact Hn.
    apply no_slash_ends, decimal_no_slash, str_decimal.
Qed.

End Paths.

(** ** Where a message is filed *)

Section Filing.

Variable cfg : Config.

Lemma count_slash_app (a b : string) :
  count_slash (a +:+ b) = (count_slash a + count_slash b)%nat.
Proof.
  induction a as [|c a IH]; [reflexivity|].
  rewrite app_cons. cbn [count_slash]. rewrite IH. lia.
Qed.

Lemma count_slash_none (s : string) : no_slash s = true -> count_slash s = O.
Proof.
  induction s as [|c r IH]; [reflexivity|].
  unfold no_slash. cbn [Text.all count_slash].
  rewrite andb_true_iff, negb_true_iff. intros [-> Hr]. rewrite (IH Hr).
  reflexivity.
Qed.

Lemma make_filename_in_dir (m : Message) (p : string) :
  make_filename cfg m = Ok (Some p) ->
  exists d, conversation_dir cfg m = Some d /\ p = d +:+ "/" +:+ day_file m.
Proof.
  rewrite make_filename_total. unfold conversation_dir, day_file.
  destruct (channel m); intros [= <-]; eexists; (split; [reflexivity|]);
    unfold guild_path, dm_path; rewrite ?app_assoc; reflexivity.
Qed.

Lemma conversation_dir_ends (m : Message) (d : string) :
  conversation_dir cfg m = Some d ->
  d <> EmptyString /\ ends_with_slash d = false.
Proof.
  unfold conversation_dir.
  destruct (channel m) as [g name cid | r cid | name cid | g cid];
    intros [= <-].
  - replace (LOG_DIR cfg +:+ "/" +:+ clean_filename (guild_name g) +:+ "-"
               +:+ Text.str (guild_id g) +:+ "/#" +:+ clean_filename name
               +:+ "-" +:+ Text.str cid)
      with ((LOG_DIR cfg +:+ "/" +:+ clean_filename (guild_name g) +:+ "-"
               +:+ Text.str (guild_id g) +:+ "/#" +:+ clean_filename name
               +:+ "-") +:+ Text.str cid)
      by (rewrite ?app_assoc; reflexivity).
    apply str_ends.
  - replace (LOG_DIR cfg +:+ "/DM/" +:+ clean_filename (user_name (author m))
               +:+ "-" +:+ Text.str (user_id (author m)))
      with ((LOG_DIR cfg +:+ "/DM/" +:+ clean_filename (user_name (author m))
               +:+ "-") +:+ Text.str (user_id (author m)))
      by (rewrite ?app_assoc; reflexivity).
    apply str_ends.
  - replace (LOG_DIR cfg +:+ "/DM/" +:+ clean_filename name +:+ "-"
               +:+ Text.str cid)
      with ((LOG_DIR cfg +:+ "/DM/" +:+ clean_filename name +:+ "-")
               +:+ Text.str cid)
      by (rewrite ?app_assoc; reflexivity).
    apply str_ends.
Qed.

Lemma routed_dir (m : Message) (p : string) :
  make_filename cfg m = Ok (Some p) ->
  exists d,
    conversation_dir cfg m = Some d /\
    p = d +:+ "/" +:+ day_file m /\
    dirname p = d /\
    d <> EmptyString.
Proof.
  intros Hp. destruct (make_filename_in_dir m p Hp) as (d & Hd & ->).
  destruct (conversation_dir_ends m d Hd) as [Hne Hend].
  exists d. repeat split; try assumption.
  apply dirname_join; [exact Hne | exact Hend | apply day_file_no_slash].
Qed.

Lemma routed_depth (m : Message) (p : string) :
  make_filename cfg m = Ok (Some p) ->
  count_slash p = (count_slash (LOG_DIR cfg) + 3)%nat.
Proof.
  rewrite make_filename_total.
  destruct (channel m) as [g name cid | r cid | name cid | g cid];
    intros [= <-]; unfold guild_path, dm_path;
    rewrite !count_slash_app,
      ?(count_slash_none _ (clean_filename_no_slash _)),
      ?(count_slash_none _ (decimal_no_slash _ (str_decimal _))),
      ?(count_slash_none _ (decimal_no_slash _ (ymd_decimal _)));
    cbn [count_slash]; cbn; lia.
Qed.

Lemma prefixes_go_length (seen rest p : string) :
  In p (prefixes_go seen rest) ->
  (String.length p <= String.length seen + String.length rest)%nat.
Proof.
  revert seen. induction rest as [|c r IH]; intros seen.
  - cbn. intros [<-|[]]. lia.
  - cbn [prefixes_go]. rewrite in_app_iff. intros [H|H].
    + destruct (is_slash c); [|destruct H].
      destruct H as [<-|[]]. lia.
    + apply IH in H. rewrite app_length in H. cbn [String.length] in *. lia.
Qed.

Lemma ancestors_length (d p : string) :
  In p (ancestors d) -> (String.length p <= String.length d)%nat.
Proof.
  unfold ancestors. intros H. apply filter_In in H as [H _].
  apply prefixes_go_length in H. exact H.
Qed.

Lemma longer_not_ancestor (d p : string) :
  (String.length d < String.length p)%nat ->
  existsb (String.eqb p) (ancestors d) = false.
Proof.
  intros Hlen. destruct (existsb (String.eqb p) (ancestors d)) eqn:E;
    [|reflexivity].
  apply existsb_exists in E as (q & Hq & Heq).
  apply String.eqb_eq in Heq as <-. apply ancestors_length in Hq. lia.
Qed.

(** For a routed path the file system alone decides whether the writer
    goes through. *)
Lemma routed_accepts (m : Message) (p : string) (fs : FS) :
  make_filename cfg m = Ok (Some p) -> accepts p fs = unobstructed p fs.
Proof.
  intros Hp. destruct (make_filename_in_dir m p Hp) as (d & Hd & Heq).
  destruct (conversation_dir_ends m d Hd) as [Hne Hend].
  assert (Hdir : dirname p = d).
  { subst p. apply dirname_join;
      [exact Hne | exact Hend | apply day_file_no_slash]. }
  unfold accepts, unobstructed. rewrite Hdir.
  replace (is_empty d) with false by (destruct d; [congruence | reflexivity]).
  rewrite longer_not_ancestor
    by (subst p; rewrite !app_length;
        change (String.length "/") with 1%nat; lia).
  cbn [negb]. rewrite andb_true_r. reflexivity.
Qed.

Lemma routed_depths (m : Message) (p : string) :
  make_filename cfg m = Ok (Some p) ->
  count_slash p = (count_slash (LOG_DIR cfg) + 3)%nat /\
  count_slash (dirname p) = (count_slash (LOG_DIR cfg) + 2)%nat.
Proof.
  intros Hp. pose proof (routed_depth m p Hp) as Hc.
  split; [exact Hc|].
  destruct (routed_dir m p Hp) as (d & _ & Heq & -> & _).
  rewrite Heq, !count_slash_app in Hc.
  rewrite (count_slash_none _ (day_file_no_slash m)) in Hc.
  change (count_slash "/") with 1%nat in Hc. lia.
Qed.

(** X1.  A routed path is the day's file, a name without slash, inside the
    directory of the conversation, and [os.path.dirname], whose result the
    writer creates, gives back exactly that directory, which is never the
    empty name. *)
Theorem routed_path_directory (m : Message) (p : string) :
  make_filename cfg m = Ok (Some p) ->
  exists d,
    conversation_dir cfg m = Some d /\
    p = d +:+ "/" +:+ day_file m /\
    no_slash (day_file m) = true /\
    dirname p = d /\
    d <> EmptyString.
Proof.
  intros Hp. destruct (routed_dir m p Hp) as (d & Hd & Heq & Hdir & Hne).
  exists d. split; [exact Hd|]. split; [exact Heq|].
  split; [apply day_file_no_slash|]. split; assumption.
Qed.

(** X2.  Names add no path component: whatever the guild, channel, user or
    group is called, the routed path has exactly three slashes more than
    the log root, and its directory two. *)
Theorem routed_path_depth (m : Message) (p : string) :
  make_filename cfg m = Ok (Some p) ->
  count_slash p = (count_slash (LOG_DIR cfg) + 3)%nat /\
  count_slash (dirname p) = (count_slash (LOG_DIR cfg) + 2)%nat.
Proof.
  intros Hp. destruct (routed_depths m p Hp) as [Hfile Hdir].
  split; [exact Hfile | exact Hdir].
Qed.

End Filing.

(** ** The file system under the writer and the handlers *)

Section Disk.

Variable cfg : Config.

Lemma grows_refl (fs : FS) : grows fs fs.
Proof.
  split; [reflexivity|]. intros p old H. exists EmptyString.
  rewrite app_nil_r. exact H.
Qed.

Lemma grows_trans (a b c : FS) : grows a b -> grows b c -> grows a c.
Proof.
  intros [Hd1 Hf1] [Hd2 Hf2]. split; [etransitivity; eassumption|].
  intros p old H. destruct (Hf1 p old H) as (m1 & H1).
  destruct (Hf2 p _ H1) as (m2 & H2). exists (m1 +:+ m2).
  rewrite H2, app_assoc. reflexivity.
Qed.

Lemma append_only_ret {A} (a : A) : append_only (io_ret a).
Proof. intros fs. apply grows_refl. Qed.

Lemma append_only_lift {A} (r : result A) : append_only (io_lift r).
Proof. intros fs. apply grows_refl. Qed.

Lemma append_only_bind {A B} (m : io A) (k : A -> io B) :
  append_only m -> (forall a, append_only (k a)) -> append_only (io_bind m k).
Proof.
  intros Hm Hk fs. unfold io_bind. specialize (Hm fs).
  destruct (m fs) as [[a|e] fs1]; cbn [snd] in *; [|exact Hm].
  eapply grows_trans; [exact Hm | apply Hk].
Qed.

Lemma append_only_makedirs (d : string) : append_only (makedirs d).
Proof.
  intros fs. unfold makedirs.
  destruct (is_empty d); [apply grows_refl|].
  destruct (is_file d fs); [apply grows_refl|].
  destruct (existsb _ _); [apply grows_refl|].
  split; cbn [snd dirs files]; [apply union_subseteq_l|].
  intros p old H. exists EmptyString. rewrite app_nil_r. exact H.
Qed.

Lemma append_only_path_exists (p : string) : append_only (path_exists p).
Proof. intros fs. apply grows_refl. Qed.

Lemma append_only_open (p : string) : append_only (open_append p).
Proof.
  intros fs. unfold open_append.
  destruct (is_dir p fs); [apply grows_refl|].
  split; cbn [snd dirs files]; [reflexivity|].
  intros q old H. exists EmptyString. rewrite app_nil_r.
  destruct (files fs !! p) eqn:Hp; [exact H|].
  rewrite lookup_insert_ne by congruence. exact H.
Qed.

Lemma append_only_file_write (p data : string) : append_only (file_write p data).
Proof.
  intros fs. split; cbn [snd file_write dirs files]; [reflexivity|].
  intros q old H. destruct (decide (p = q)) as [->|Hne].
  - rewrite lookup_insert_eq, H. cbn [default]. eauto.
  - rewrite lookup_insert_ne by exact Hne. exists EmptyString.
    rewrite app_nil_r. exact H.
Qed.

Lemma append_only_write (env : Env) (filename : option string) (entry : string) :
  append_only (write cfg env filename entry).
Proof.
  unfold write. destruct filename as [f|]; [|intros fs; apply grows_refl].
  apply append_only_bind; [apply append_only_makedirs | intros _].
  apply append_only_bind; [apply append_only_path_exists | intros ex].
  apply append_only_bind; [apply append_only_open | intros _].
  apply append_only_bind; [|intros _; apply append_only_file_write].
  destruct (negb ex); [|apply append_only_ret].
  apply append_only_bind; [apply append_only_lift | intros line].
  apply append_only_file_write.
Qed.

Lemma append_only_handle_message (env : Env) (m : Message) :
  append_only (handle_message cfg env m).
Proof.
  unfold handle_message. destruct (ignored cfg (guild m));
    [apply append_only_ret|].
  apply append_only_bind; [apply append_only_lift | intros f].
  apply append_only_bind; [apply append_only_lift | intros e].
  apply append_only_write.
Qed.

Lemma append_only_raw (env : Env) (bot : Platform)
    (payload : RawMessageUpdateEvent) :
  append_only (on_raw_message_edit cfg env bot payload).
Proof.
  unfold on_raw_message_edit.
  destruct (_get_message bot (message_id payload)); [apply append_only_ret|].
  destruct (get_channel bot (channel_id payload)) as [ch|];
    [|apply append_only_ret].
  apply append_only_bind; [apply append_only_lift | intros g].
  destruct (ignored cfg g); [apply append_only_ret|].
  apply append_only_bind; [apply append_only_lift | intros [m|]];
    [apply append_only_handle_message | apply append_only_ret].
Qed.

Lemma run_listeners_grows (ls : list (io unit)) (fs : FS) :
  Forall append_only ls -> grows fs (snd (run_listeners ls fs)).
Proof.
  intros H. revert fs. induction H as [|l ls Hl _ IH]; intros fs.
  - apply grows_refl.
  - cbn [run_listeners]. specialize (Hl fs).
    destruct (l fs) as [r fs1]. specialize (IH fs1).
    destruct (run_listeners ls fs1) as [rs fs2]. cbn [snd] in *.
    eapply grows_trans; eassumption.
Qed.

Lemma dispatch_grows (env : Env) (bot : Platform) (ev : Event) (fs : FS) :
  grows fs (snd (dispatch cfg env bot ev fs)).
Proof.
  unfold dispatch. apply run_listeners_grows.
  destruct ev as [m | before after | payload]; cbn [listeners].
  - apply List.Forall_cons; [apply append_only_handle_message | apply List.Forall_nil].
  - apply List.Forall_cons; [apply append_only_ret|].
    apply List.Forall_cons; [apply append_only_handle_message | apply List.Forall_nil].
  - apply List.Forall_cons; [apply append_only_raw | apply List.Forall_nil].
Qed.

(** X3.  The transcript is append-only over a whole run: whatever events
    are delivered, whether their handlers return or raise, every directory
    of the initial file system is still there at the end and every file
    still starts with the text it had. *)
Theorem transcript_append_only (bot : Platform) (evs : list (Env * Event))
    (fs : FS) :
  grows fs (deliver cfg bot evs fs).
Proof.
  revert fs. induction evs as [|[env ev] rest IH]; intros fs.
  - apply grows_refl.
  - cbn [deliver]. eapply grows_trans; [apply dispatch_grows | apply IH].
Qed.

Lemma touches_only_ret {A} (t : option string) (a : A) :
  touches_only t (io_ret a).
Proof. intros fs p _. reflexivity. Qed.

Lemma touches_only_lift {A} (t : option string) (r : result A) :
  touches_only t (io_lift r).
Proof. intros fs p _. reflexivity. Qed.

Lemma touches_only_bind {A B} (t : option string) (m : io A) (k : A -> io B) :
  touches_only t m -> (forall a, touches_only t (k a)) ->
  touches_only t (io_bind m k).
Proof.
  intros Hm Hk fs p Hp. unfold io_bind. specialize (Hm fs p Hp).
  destruct (m fs) as [[a|e] fs1]; cbn [snd] in *; [|exact Hm].
  rewrite (Hk a fs1 p Hp). exact Hm.
Qed.

Lemma touches_only_write (env : Env) (filename : option string)
    (entry : string) :
  touches_only filename (write cfg env filename entry).
Proof.
  unfold write. destruct filename as [f|]; [|intros fs p _; reflexivity].
  assert (Hw : forall data, touches_only (Some f) (file_write f data)).
  { intros data fs p Hp. cbn [snd file_write files].
    apply lookup_insert_ne. congruence. }
  apply touches_only_bind; [|intros _].
  { intros fs p _. unfold makedirs.
    destruct (is_empty _); [reflexivity|].
    destruct (is_file _ _); [reflexivity|].
    destruct (existsb _ _); reflexivity. }
  apply touches_only_bind; [intros fs p _; reflexivity | intros ex].
  apply touches_only_bind; [|intros _].
  { intros fs p Hp. unfold open_append.
    destruct (is_dir f fs); [reflexivity|]. cbn [snd files].
    destruct (files fs !! f); [reflexivity|].
    apply lookup_insert_ne. congruence. }
  apply touches_only_bind; [|intros _; apply Hw].
  destruct (negb ex); [|apply touches_only_ret].
  apply touches_only_bind; [apply touches_only_lift | intros line; apply Hw].
Qed.

(** X4.  The message action changes no file but the one the message is
    routed to, whether it returns or raises. *)
Theorem handle_message_touches_routed_file (env : Env) (m : Message)
    (fs : FS) (p : string) :
  make_filename cfg m <> Ok (Some p) ->
  files (snd (handle_message cfg env m fs)) !! p = files fs !! p.
Proof.
  intros Hp. unfold handle_message.
  destruct (ignored cfg (guild m)); [reflexivity|].
  unfold io_bind, io_lift.
  destruct (make_filename cfg m) as [f|e]; [|reflexivity].
  destruct (make_message cfg env m) as [entry|e]; [|reflexivity].
  apply (touches_only_write env f entry fs p). congruence.
Qed.

Lemma write_failure_keeps_files (env : Env) (filename : option string)
    (entry : string) (fs : FS) (e : exn) :
  fst (write cfg env filename entry fs) = Raise e ->
  files (snd (write cfg env filename entry fs)) = files fs.
Proof.
  unfold write. destruct filename as [f|]; [|reflexivity].
  unfold io_bind, makedirs, path_exists, open_append.
  destruct (is_empty _); [reflexivity|].
  destruct (is_file (dirname f) fs); [reflexivity|].
  destruct (existsb _ _); [reflexivity|].
  destruct (is_dir f _); [reflexivity|].
  destruct (negb _); [rewrite format_session|]; cbn; discriminate.
Qed.

(** X5.  A message action that raises has written nothing: every file has
    the text it had before the call. *)
Theorem handle_message_failure_writes_nothing (env : Env) (m : Message)
    (fs : FS) (e : exn) :
  fst (handle_message cfg env m fs) = Raise e ->
  files (snd (handle_message cfg env m fs)) = files fs.
Proof.
  unfold handle_message.
  destruct (ignored cfg (guild m)); [discriminate|].
  unfold io_bind, io_lift.
  destruct (make_filename cfg m) as [f|e1]; [|reflexivity].
  destruct (make_message cfg env m) as [entry|e1]; [|reflexivity].
  apply write_failure_keeps_files.
Qed.

End Disk.

(** ** Successive appends *)

Section Appends.

Variable cfg : Config.

Lemma accepts_after_append (env : Env) (f entry : string) (fs : FS) :
  accepts f fs = true -> dirname f <> f ->
  accepts f (after_append cfg env f entry fs) = true.
Proof.
  unfold accepts. rewrite !andb_true_iff, !negb_true_iff.
  intros ((((Hd & Hf) & Ha) & Hdir) & Hself) Hne.
  unfold is_file, is_dir in *. cbn [after_append dirs files].
  apply bool_decide_eq_false in Hf, Hdir.
  pose proof (existsb_eqb_false _ _ Hself) as Hself'.
  repeat split; try assumption.
  - apply bool_decide_eq_false. rewrite dom_insert_L, elem_of_union,
      elem_of_singleton. tauto.
  - match goal with
    | |- existsb ?g ?l = false => destruct (existsb g l) eqn:E; [|reflexivity]
    end.
    apply existsb_exists in E as (q & Hq & Hfile).
    apply bool_decide_eq_true in Hfile.
    rewrite dom_insert_L, elem_of_union, elem_of_singleton in Hfile.
    destruct Hfile as [->|Hfile].
    + exfalso. apply Hself'. apply elem_of_list_to_set, list_elem_of_In, Hq.
    + assert (existsb (fun p => bool_decide (p ∈ dom (files fs)))
                (ancestors (dirname f)) = true); [|congruence].
      apply existsb_exists. exists q. split; [exact Hq|].
      apply bool_decide_eq_true, Hfile.
  - apply bool_decide_eq_false. rewrite elem_of_union. tauto.
Qed.

Lemma routed_dirname_differs (m : Message) (p : string) :
  make_filename cfg m = Ok (Some p) -> dirname p <> p.
Proof.
  intros Hp Heq. destruct (routed_dir cfg m p Hp) as (d & _ & Hpd & Hd & _).
  rewrite Hd in Heq. rewrite Hpd in Heq at 1.
  apply (f_equal String.length) in Heq. rewrite !app_length in Heq.
  change (String.length "/") with 1%nat in Heq. lia.
Qed.

Lemma handle_loggable (p : string) (env : Env) (m : Message) (fs : FS) :
  loggable cfg p (env, m) -> unobstructed p fs = true ->
  handle_message cfg env m fs =
    (Ok tt, after_append cfg env p (entry_of cfg env m) fs) /\
  unobstructed p (after_append cfg env p (entry_of cfg env m) fs) = true.
Proof.
  intros (Hp & Hi & Hid) Hu. cbn [snd] in *.
  pose proof (routed_accepts cfg m p fs Hp) as Hacc. rewrite Hu in Hacc.
  split.
  - apply handle_message_accepted; try assumption.
    apply make_message_line, Hid.
  - rewrite <- (routed_accepts cfg m p _ Hp).
    apply accepts_after_append; [exact Hacc|].
    apply (routed_dirname_differs m p Hp).
Qed.



Lemma head_nonempty (f : string) :
  no_slash f = false -> is_empty (head_to_last_slash f) = false.
Proof.
  induction f as [|c r IH]; [discriminate|].
  unfold no_slash. cbn [Text.all head_to_last_slash].
  destruct (is_slash c); [reflexivity|]. cbn [negb andb orb].
  intros Hr. rewrite (IH Hr). reflexivity.
Qed.

Lemma rstrip_nonempty (s : string) :
  Text.all is_slash s = false -> is_empty (rstrip_slash s) = false.
Proof.
  induction s as [|c r IH]; [discriminate|].
  cbn [Text.all rstrip_slash]. destruct (is_slash c); cbn [andb].
  - intros Hr. rewrite (IH Hr). reflexivity.
  - reflexivity.
Qed.

Lemma dirname_nonempty (f : string) :
  no_slash f = false -> is_empty (dirname f) = false.
Proof.
  intros H. unfold dirname. rewrite (head_nonempty f H). cbn [negb andb].
  destruct (Text.all is_slash (head_to_last_slash f)) eqn:E; cbn [negb].
  - apply head_nonempty, H.
  - apply rstrip_nonempty, E.
Qed.

Lemma dirname_bare (f : string) : no_slash f = true -> dirname f = EmptyString.
Proof.
  intros H. unfold dirname. rewrite (head_to_last_slash_none f H). reflexivity.
Qed.

(** X8.  The writer raises FileNotFoundError exactly for a path without a
    slash, whose directory name is empty, and then changes nothing. *)
Theorem write_without_directory (env : Env) (f entry : string) (fs : FS) :
  (no_slash f = true ->
   write cfg env (Some f) entry fs = (Raise FileNotFoundError, fs)) /\
  (fst (write cfg env (Some f) entry fs) = Raise FileNotFoundError ->
   no_slash f = true).
Proof.
  split.
  - intros H. unfold write, io_bind, makedirs. rewrite (dirname_bare f H).
    reflexivity.
  - destruct (no_slash f) eqn:H; [reflexivity|].
    unfold write, io_bind, makedirs, path_exists, open_append.
    rewrite (dirname_nonempty f H).
    destruct (is_file (dirname f) fs); [discriminate|].
    destruct (existsb _ _); [discriminate|].
    destruct (is_dir f _); [discriminate|].
    destruct (negb _); [rewrite format_session|]; cbn; discriminate.
Qed.

End Appends.

(** ** Edits, failed fetches and private conversations *)

Section Logged.

Variable cfg : Config.
Variable bot : Platform.

Lemma takes_unobstructed (p : string) (fs : FS) :
  takes p fs = true -> unobstructed p fs = true.
Proof. unfold takes. intros H. apply andb_true_iff in H as [_ H]. exact H. Qed.

Lemma make_filename_supported (m : Message) :
  supported (channel m) = true -> exists p, make_filename cfg m = Ok (Some p).
Proof.
  intros Hs. rewrite make_filename_total.
  destruct (channel m); try discriminate; eauto.
Qed.

(** The file that an append leaves at the path, and the files it leaves
    alone. *)
Lemma after_append_files (env : Env) (p entry : string) (fs : FS) :
  files (after_append cfg env p entry fs) !! p =
    Some (appended cfg env (files fs !! p) entry) /\
  (forall q, q <> p ->
             files (after_append cfg env p entry fs) !! q = files fs !! q).
Proof.
  cbn [after_append files]. split.
  - apply lookup_insert_eq.
  - intros q Hq. apply lookup_insert_ne. congruence.
Qed.

(** The message action on a message that is logged. *)
Lemma handle_message_taken (env : Env) (m : Message) (fs : FS) :
  supported (channel m) = true ->
  ignored cfg (guild m) = false ->
  0 <= id m < 2 ^ 64 ->
  (forall p, make_filename cfg m = Ok (Some p) -> takes p fs = true) ->
  exists p,
    make_filename cfg m = Ok (Some p) /\
    handle_message cfg env m fs =
      (Ok tt, after_append cfg env p (entry_of cfg env m) fs).
Proof.
  intros Hs Hi Hid Ht.
  destruct (make_filename_supported m Hs) as (p & Hp).
  exists p. split; [exact Hp|].
  apply (handle_loggable cfg p env m fs).
  - unfold loggable. cbn [snd]. auto.
  - apply takes_unobstructed, Ht, Hp.
Qed.

(** The two listeners of the direct edit event together run the message
    action once, on the message as edited. *)
Lemma direct_edit_dispatch (env : Env) (before after : Message) (fs : FS) :
  dispatch cfg env bot (MessageEditEvent before after) fs =
  ([Ok tt; fst (handle_message cfg env after fs)],
   snd (handle_message cfg env after fs)).
Proof.
  unfold dispatch, listeners, on_message_edit_pass, on_message_edit.
  cbn [run_listeners io_ret].
  destruct (handle_message cfg env after fs). reflexivity.
Qed.

Lemma message_dispatch (env : Env) (m : Message) (fs : FS) :
  dispatch cfg env bot (MessageEvent m) fs =
  ([fst (handle_message cfg env m fs)], snd (handle_message cfg env m fs)).
Proof.
  unfold dispatch, listeners, on_message. cbn [run_listeners].
  destruct (handle_message cfg env m fs). reflexivity.
Qed.

Lemma raw_edit_dispatch (env : Env) (payload : RawMessageUpdateEvent)
    (fs : FS) :
  dispatch cfg env bot (RawMessageEditEvent payload) fs =
  ([fst (on_raw_message_edit cfg env bot payload fs)],
   snd (on_raw_message_edit cfg env bot payload fs)).
Proof.
  unfold dispatch, listeners. cbn [run_listeners].
  destruct (on_raw_message_edit cfg env bot payload fs). reflexivity.
Qed.

(** Whatever the edited message is, when the cache holds it the two events
    of one edit run the message action once between them, in either order
    of delivery. *)
Lemma edit_events_one_action (env1 env2 : Env) (before after : Message)
    (payload : RawMessageUpdateEvent) (fs : FS) :
  message_id payload = id after ->
  _get_message bot (id after) <> None ->
  let direct := dispatch cfg env1 bot (MessageEditEvent before after) in
  let raw := dispatch cfg env2 bot (RawMessageEditEvent payload) in
  snd (raw (snd (direct fs))) = snd (handle_message cfg env1 after fs) /\
  snd (direct (snd (raw fs))) = snd (handle_message cfg env1 after fs).
Proof.
  intros Hid Hcache. cbv zeta. rewrite <- Hid in Hcache.
  rewrite !raw_edit_dispatch, !direct_edit_dispatch.
  rewrite !(raw_edit_cached cfg bot env2 payload _ Hcache).
  cbn [fst snd]. split; reflexivity.
Qed.

(** C5.  One edit of a message that the cache holds, which is when the
    direct edit event is delivered, reaches the program as a direct and a
    raw edit event.  For a message in a supported channel of a guild that
    is not ignored, with a 64-bit id, on a file system that takes the
    routed path: delivered in either order, the two events leave exactly
    one entry appended.  The direct event appends it (its first listener
    does nothing, its second one logs) and the raw event changes nothing;
    the day's file holds its former text, or the marker, and then the one
    entry, and every other file is as it was. *)
Theorem edit_logged_once (env1 env2 : Env) (before after : Message)
    (payload : RawMessageUpdateEvent) (fs : FS) :
  message_id payload = id after ->
  _get_message bot (id after) <> None ->
  supported (channel after) = true ->
  ignored cfg (guild after) = false ->
  0 <= id after < 2 ^ 64 ->
  (forall p, make_filename cfg after = Ok (Some p) -> takes p fs = true) ->
  let direct := dispatch cfg env1 bot (MessageEditEvent before after) in
  let raw := dispatch cfg env2 bot (RawMessageEditEvent payload) in
  exists p,
    make_filename cfg after = Ok (Some p) /\
    let logged := after_append cfg env1 p (entry_of cfg env1 after) fs in
    direct fs = ([Ok tt; Ok tt], logged) /\
    raw (snd (direct fs)) = ([Ok tt], logged) /\
    raw fs = ([Ok tt], fs) /\
    direct (snd (raw fs)) = ([Ok tt; Ok tt], logged) /\
    files logged !! p =
      Some (appended cfg env1 (files fs !! p) (entry_of cfg env1 after)) /\
    (forall q, q <> p -> files logged !! q = files fs !! q).
Proof.
  intros Hid Hcache Hs Hi Hrange Ht. cbv zeta. rewrite <- Hid in Hcache.
  destruct (handle_message_taken env1 after fs Hs Hi Hrange Ht) as (p & Hp & Hh).
  exists p. split; [exact Hp|].
  rewrite !raw_edit_dispatch, !direct_edit_dispatch.
  rewrite !(raw_edit_cached cfg bot env2 payload _ Hcache).
  cbn [fst snd]. rewrite Hh. cbn [fst snd].
  repeat (split; [reflexivity|]).
  apply after_append_files.
Qed.

(** C8.  The claim holds for a channel that is not resolved (lemma
    [raw_edit_unresolved_channel]) and fails for a message that cannot be
    fetched: when the cache does not hold the message, the channel
    resolves, has a guild attribute and is not ignored, an exception of
    the fetch leaves the handler as it is and the dispatcher reports it.
    No entry is appended: the file system is unchanged. *)
Theorem raw_edit_failed_fetch_raises (env : Env)
    (payload : RawMessageUpdateEvent) (ch : Channel) (g : option Guild)
    (e : exn) (fs : FS) :
  _get_message bot (message_id payload) = None ->
  get_channel bot (channel_id payload) = Some ch ->
  channel_guild_attribute ch = Ok g ->
  ignored cfg g = false ->
  get_message bot ch (message_id payload) = Raise e ->
  on_raw_message_edit cfg env bot payload fs = (Raise e, fs) /\
  dispatch cfg env bot (RawMessageEditEvent payload) fs = ([Raise e], fs).
Proof.
  intros Hc Hch Hg Hi Hfetch.
  assert (Hh : on_raw_message_edit cfg env bot payload fs = (Raise e, fs)).
  { unfold on_raw_message_edit, io_bind, io_lift.
    rewrite Hc, Hch, Hg, Hi, Hfetch. reflexivity. }
  split; [exact Hh|]. rewrite raw_edit_dispatch, Hh. reflexivity.
Qed.

Lemma no_guild_ignore_list (env : Env) (m : Message) (fs : FS)
    (ignore_list : list Z) :
  guild m = None ->
  handle_message {| LOG_DIR := LOG_DIR cfg;
                    USE_LOCALTIME := USE_LOCALTIME cfg;
                    IGNORE_SERVERS := ignore_list |} env m fs =
  handle_message cfg env m fs.
Proof. intros Hg. unfold handle_message. rewrite Hg. reflexivity. Qed.

(** C10.  A direct or group message (a supported channel without guild)
    with a 64-bit id is routed, formatted and appended whatever the ignore
    list holds: on a file system that takes the routed path, under any
    ignore list the message action returns normally, and so do the
    listeners of the event that delivers the message, created or edited;
    the day's file is left with its former text, or the marker, and then
    the entry of the message. *)
Theorem no_guild_never_suppressed (env : Env) (m : Message) (fs : FS) :
  guild m = None ->
  supported (channel m) = true ->
  0 <= id m < 2 ^ 64 ->
  (forall p, make_filename cfg m = Ok (Some p) -> takes p fs = true) ->
  exists p,
    make_filename cfg m = Ok (Some p) /\
    make_message cfg env m = Ok (entry_of cfg env m) /\
    let logged := after_append cfg env p (entry_of cfg env m) fs in
    (forall ignore_list before,
        let cfg' := {| LOG_DIR := LOG_DIR cfg;
                       USE_LOCALTIME := USE_LOCALTIME cfg;
                       IGNORE_SERVERS := ignore_list |} in
        handle_message cfg' env m fs = (Ok tt, logged) /\
        dispatch cfg' env bot (MessageEvent m) fs = ([Ok tt], logged) /\
        dispatch cfg' env bot (MessageEditEvent before m) fs =
          ([Ok tt; Ok tt], logged)) /\
    files logged !! p =
      Some (appended cfg env (files fs !! p) (entry_of cfg env m)).
Proof.
  intros Hg Hs Hid Ht.
  assert (Hi : ignored cfg (guild m) = false) by (rewrite Hg; reflexivity).
  destruct (handle_message_taken env m fs Hs Hi Hid Ht) as (p & Hp & Hh).
  exists p. split; [exact Hp|].
  split; [apply make_message_line, Hid|]. cbv zeta. split.
  - intros l before.
    pose proof (no_guild_ignore_list env m fs l Hg) as Hl.
    unfold dispatch, listeners, on_message, on_message_edit_pass,
      on_message_edit.
    cbn [run_listeners io_ret]. rewrite Hl, Hh. auto.
  - apply after_append_files.
Qed.

End Logged.

(** ** Entries and tokens *)

Section Entries.

Variable cfg : Config.
Variable env : Env.

Lemma in_range_64_spec (n : Z) : in_range_64 n = true <-> 0 <= n < 2 ^ 64.
Proof. unfold in_range_64. rewrite andb_true_iff, Z.leb_le, Z.ltb_lt. tauto. Qed.

Lemma range_64_dec (n : Z) : {0 <= n < 2 ^ 64} + {~ 0 <= n < 2 ^ 64}.
Proof.
  destruct (in_range_64 n) eqn:E; [left | right].
  - apply in_range_64_spec, E.
  - intros H. apply in_range_64_spec in H. congruence.
Qed.

Lemma make_message_overflow (m : Message) :
  ~ 0 <= id m < 2 ^ 64 -> make_message cfg env m = Raise OverflowError.
Proof.
  intros H. unfold make_message. rewrite (encode_id_out_of_range _ H).
  reflexivity.
Qed.

(** X9.  A message whose id does not fit 8 unsigned bytes cannot be
    formatted: [make_message] raises OverflowError, and the message action,
    unless the ignore filter drops the message first, raises it too and
    leaves the file system as it was. *)
Theorem id_overflow_not_logged (m : Message) (fs : FS) :
  ~ 0 <= id m < 2 ^ 64 ->
  make_message cfg env m = Raise OverflowError /\
  (ignored cfg (guild m) = false ->
   handle_message cfg env m fs = (Raise OverflowError, fs)) /\
  (ignored cfg (guild m) = true ->
   handle_message cfg env m fs = (Ok tt, fs)).
Proof.
  intros H. pose proof (make_message_overflow m H) as Hm.
  split; [exact Hm|]. split; intros Hi.
  - unfold handle_message, io_bind, io_lift.
    rewrite Hi, make_filename_total, Hm. reflexivity.
  - apply handle_message_ignored, Hi.
Qed.

Lemma app_inv_length (a a' b b' : string) :
  String.length a = String.length a' ->
  a +:+ b = a' +:+ b' -> a = a' /\ b = b'.
Proof.
  revert a'. induction a as [|c a IH]; intros [|c' a'] Hlen; try discriminate.
  - intros H. split; [reflexivity | exact H].
  - rewrite !app_cons. intros [= -> H]. injection Hlen as Hlen.
    destruct (IH a' Hlen H) as [-> ->]. split; reflexivity.
Qed.

Lemma encode_id_inj (a b : Z) (t : string) :
  encode_id a = Ok t -> encode_id b = Ok t -> a = b.
Proof.
  intros Ha Hb.
  destruct (range_64_dec a) as [Ra|Ra];
    [|rewrite (encode_id_out_of_range _ Ra) in Ha; discriminate].
  destruct (range_64_dec b) as [Rb|Rb];
    [|rewrite (encode_id_out_of_range _ Rb) in Hb; discriminate].
  rewrite (encode_id_in_range _ Ra) in Ha.
  rewrite (encode_id_in_range _ Rb) in Hb.
  assert (Heq : b64encode (to_bytes_le 8 a) = b64encode (to_bytes_le 8 b))
    by congruence.
  apply (f_equal b64decode) in Heq.
  rewrite !b64decode_b64encode in Heq by apply to_bytes_le_bytes.
  assert (Hbytes : to_bytes_le 8 a = to_bytes_le 8 b) by congruence.
  apply (f_equal from_bytes_le) in Hbytes.
  rewrite !from_to_bytes_le in Hbytes.
  rewrite !Z.mod_small in Hbytes by (cbn; lia). exact Hbytes.
Qed.

Lemma token_length (n : Z) (t : string) :
  encode_id n = Ok t -> String.length t = 12%nat.
Proof.
  intros H. destruct (range_64_dec n) as [R|R];
    [|rewrite (encode_id_out_of_range _ R) in H; discriminate].
  rewrite (encode_id_in_range _ R) in H. injection H as <-. reflexivity.
Qed.

Lemma marked_start (t r r' : string) :
  String.prefix "E:" t = false -> (2 <= String.length t)%nat ->
  "E:" +:+ r <> t +:+ r'.
Proof.
  intros Hp Hlen H.
  destruct t as [|c1 [|c2 t]]; cbn [String.length] in Hlen; try lia.
  rewrite !app_cons in H. injection H as H1 H2 _.
  subst c1 c2. cbn [String.prefix] in Hp.
  destruct (ascii_dec "E" "E"); [|congruence].
  destruct (ascii_dec ":" ":"); [|congruence].
  destruct t; discriminate.
Qed.

(** X10.  The line identifies the message: two messages that are formatted
    to the same line, under any configurations, have the same id and are
    both edited or both not. *)
Theorem line_determines_id (cfg' : Config) (env' : Env) (m m' : Message)
    (line : string) :
  make_message cfg env m = Ok line ->
  make_message cfg' env' m' = Ok line ->
  id m = id m' /\ (edited_at m = None <-> edited_at m' = None).
Proof.
  intros H H'.
  destruct (range_64_dec (id m)) as [R|R];
    [|rewrite (make_message_overflow m R) in H; discriminate].
  destruct (range_64_dec (id m')) as [R'|R'].
  2: { unfold make_message in H'.
       rewrite (encode_id_out_of_range _ R') in H'. discriminate. }
  rewrite (make_message_line cfg env m R) in H.
  rewrite (make_message_line cfg' env' m' R') in H'.
  assert (Hline : log_line cfg env m (b64encode (to_bytes_le 8 (id m))) =
                  log_line cfg' env' m' (b64encode (to_bytes_le 8 (id m'))))
    by congruence.
  clear H H'. rename Hline into H.
  pose proof (encode_id_in_range _ R) as E.
  pose proof (encode_id_in_range _ R') as E'.
  pose proof (token_length _ _ E) as L. pose proof (token_length _ _ E') as L'.
  pose proof (token_not_marked _ _ E) as N.
  pose proof (token_not_marked _ _ E') as N'.
  unfold log_line, idtag in H.
  set (t := b64encode (to_bytes_le 8 (id m))) in *.
  set (t' := b64encode (to_bytes_le 8 (id m'))) in *.
  assert (Same : forall r r', t +:+ r = t' +:+ r' -> id m = id m').
  { intros r r' Heq. apply app_inv_length in Heq as [Heq _]; [|congruence].
    apply (encode_id_inj _ _ t); [exact E | rewrite Heq; exact E']. }
  clearbody t t'.
  apply String.app_inj in H. rewrite !app_assoc in H.
  destruct (edited_at m) as [e|], (edited_at m') as [e'|].
  - apply String.app_inj in H. split; [exact (Same _ _ H) | split; discriminate].
  - exfalso. apply (marked_start t' _ _ N') in H; [exact H | lia].
  - exfalso. symmetry in H. apply (marked_start t _ _ N) in H; [exact H | lia].
  - split; [exact (Same _ _ H) | tauto].
Qed.

End Entries.

(** ** The shape of tokens and entries *)

Section Shapes.

Variable cfg : Config.
Variable env : Env.

Lemma get_index_in (s : string) (n : nat) (c : ascii) :
  String.get n s = Some c -> exists k, index_in c s = Some k.
Proof.
  revert n. induction s as [|d r IH]; intros n; [discriminate|].
  cbn [index_in]. destruct (Ascii.eqb c d) eqn:E; [eauto|].
  destruct n as [|n]; cbn [String.get].
  - intros [= ->]. rewrite Ascii.eqb_refl in E. discriminate.
  - intros H. destruct (IH n H) as (k & ->). eauto.
Qed.

Lemma b64_char_symbol (i : Z) : b64_symbol (b64_char i) = true.
Proof.
  unfold b64_symbol, b64_char, b64_index.
  destruct (String.get (Z.to_nat i) b64_alphabet) as [c|] eqn:E;
    [|reflexivity].
  destruct (get_index_in _ _ _ E) as (k & ->). apply orb_true_r.
Qed.

Lemma b64encode_symbols (bs : list Z) :
  Text.all b64_symbol (b64encode bs) = true.
Proof.
  remember (List.length bs) as n eqn:Hn.
  revert bs Hn. induction (lt_wf n) as [n _ IH]. intros bs Hn.
  destruct bs as [|a [|b [|c rest]]]; cbn [b64encode Text.all];
    rewrite ?b64_char_symbol; try reflexivity.
  cbn [andb]. apply (IH (List.length rest)); [subst n; cbn; lia | reflexivity].
Qed.

Lemma token_plain (n : Z) (t : string) :
  encode_id n = Ok t ->
  String.length t = 12%nat /\
  Text.all b64_symbol t = true /\
  Text.all (fun c => negb (Ascii.eqb c "]") && negb (Ascii.eqb c " ")
                     && negb (Ascii.eqb c "010")) t = true.
Proof.
  intros H. split; [apply (token_length n t H)|].
  assert (Hs : Text.all b64_symbol t = true).
  { unfold encode_id in H. destruct (int_to_bytes n 8) as [bs|e];
      [|discriminate].
    cbn [fmap result_fmap] in H. assert (t = b64encode bs) as -> by congruence.
    apply b64encode_symbols. }
  split; [exact Hs|]. revert Hs. apply all_impl. intros c Hc.
  destruct (Ascii.eqb_spec c "]") as [->|]; [discriminate|].
  destruct (Ascii.eqb_spec c " ") as [->|]; [discriminate|].
  destruct (Ascii.eqb_spec c "010") as [->|]; [discriminate|].
  reflexivity.
Qed.

(** X11.  The token of an id is made of 12 characters of the standard
    base64 alphabet and its padding: no bracket, blank or newline can occur
    in it. *)
Theorem token_symbols (n : Z) (t : string) :
  encode_id n = Ok t ->
  String.length t = 12%nat /\
  Text.all b64_symbol t = true /\
  Text.all (fun c => negb (Ascii.eqb c "]") && negb (Ascii.eqb c " ")
                     && negb (Ascii.eqb c "010")) t = true.
Proof.
  intros H. destruct (token_plain n t H) as (Hlen & Hsym & Hplain).
  split; [exact Hlen|]. split; [exact Hsym | exact Hplain].
Qed.

Lemma prefix_weaken (s a b : string) :
  String.prefix s a = true -> String.prefix s (a +:+ b) = true.
Proof.
  revert a. induction s as [|c s IH]; intros a H.
  - destruct (a +:+ b); reflexivity.
  - destruct a as [|d a]; [discriminate|].
    rewrite app_cons. cbn [String.prefix] in *.
    destruct (ascii_dec c d); [apply IH, H | discriminate].
Qed.

Lemma marked_app (a b : string) :
  continuation_marked a = true -> continuation_marked b = true ->
  continuation_marked (a +:+ b) = true.
Proof.
  intros Ha Hb. induction a as [|c a IH]; [exact Hb|].
  rewrite app_cons. cbn [continuation_marked] in *.
  apply andb_true_iff in Ha as [Hc Ha]. rewrite (IH Ha), andb_true_r.
  destruct (Ascii.eqb c "010"); [|reflexivity].
  apply orb_true_iff in Hc as [Hc|Hc]; apply orb_true_iff; [left | right];
    apply prefix_weaken, Hc.
Qed.

Lemma no_newline_marked (s : string) :
  no_newline s = true -> continuation_marked s = true.
Proof.
  induction s as [|c r IH]; [reflexivity|].
  unfold no_newline. cbn [Text.all continuation_marked].
  rewrite andb_true_iff, negb_true_iff. intros [-> Hr].
  apply IH, Hr.
Qed.

Lemma escape_newlines_marked (s : string) :
  continuation_marked (escape_newlines s) = true.
Proof.
  unfold escape_newlines. induction s as [|c r IH]; [reflexivity|].
  cbn [Text.expand]. destruct (Ascii.eqb c "010") eqn:E.
  - rewrite app_assoc. change (nl +:+ _) with
      (String "010" (newline_marker +:+ Text.expand
         (fun c => if Ascii.eqb c "010" then nl +:+ newline_marker
                   else String c EmptyString) r)).
    cbn [continuation_marked]. rewrite Ascii.eqb_refl, prefix_app.
    cbn [orb andb]. apply marked_app; [reflexivity | exact IH].
  - rewrite app_cons, app_nil_l. cbn [continuation_marked]. rewrite E.
    exact IH.
Qed.

Lemma attach_segment_marked (atts : list Attachment) :
  Forall (fun a => no_newline (url a) = true) atts ->
  continuation_marked (attach_segment atts) = true.
Proof.
  unfold attach_segment. induction 1 as [|a atts Ha _ IH]; [reflexivity|].
  cbn [map fold_right]. rewrite !app_assoc.
  change (nl +:+ _) with
    (String "010" ("(attach) " +:+ url a +:+
       fold_right String.append EmptyString
         (map (fun a => nl +:+ "(attach) " +:+ url a) atts))).
  cbn [continuation_marked]. rewrite Ascii.eqb_refl, (prefix_app "(attach) ").
  rewrite orb_true_r. cbn [andb].
  apply marked_app; [reflexivity|].
  apply marked_app; [apply no_newline_marked, Ha | exact IH].
Qed.

(** X12.  Every line of an entry after the first starts with a marker:
    when the author's name and discriminator and the attachment URLs hold no
    newline, each newline of the formatted line is followed by [(newline) ]
    or [(attach) ]. *)
Theorem entry_continuations_marked (m : Message) :
  0 <= id m < 2 ^ 64 ->
  no_newline (user_name (author m)) = true ->
  no_newline (discriminator (author m)) = true ->
  Forall (fun a => no_newline (url a) = true) (attachments m) ->
  exists line,
    make_message cfg env m = Ok line /\ continuation_marked line = true.
Proof.
  intros Hid Hn Hd Hu. exists (entry_of cfg env m).
  split; [apply make_message_line, Hid|].
  destruct (token_plain _ _ (encode_id_in_range _ Hid)) as (_ & _ & Ht).
  assert (Htok : no_newline (b64encode (to_bytes_le 8 (id m))) = true).
  { revert Ht. apply all_impl. intros c Hc.
    apply andb_true_iff in Hc as [_ Hc]. exact Hc. }
  unfold entry_of, log_line, idtag.
  repeat match goal with
         | |- continuation_marked (_ +:+ _) = true => apply marked_app
         end;
    first [ apply no_newline_marked; assumption
          | apply no_newline_marked, hms_no_newline
          | apply escape_newlines_marked
          | apply attach_segment_marked; assumption
          | destruct (edited_at m); reflexivity
          | reflexivity ].
Qed.

Lemma filter_app (keep : ascii -> bool) (a b : string) :
  Text.filter keep (a +:+ b) = Text.filter keep a +:+ Text.filter keep b.
Proof.
  induction a as [|c a IH]; [reflexivity|].
  rewrite app_cons. cbn [Text.filter]. rewrite IH.
  destruct (keep c); reflexivity.
Qed.

Lemma filter_length (keep : ascii -> bool) (s : string) :
  (String.length (Text.filter keep s) <= String.length s)%nat.
Proof.
  induction s as [|c r IH]; [reflexivity|].
  cbn [Text.filter]. destruct (keep c); cbn [String.length]; lia.
Qed.

Lemma filter_same (keep : ascii -> bool) (s : string) :
  Text.filter keep s = s <-> Text.all keep s = true.
Proof.
  induction s as [|c r IH]; [tauto|].
  cbn [Text.filter Text.all]. destruct (keep c) eqn:E; cbn [andb].
  - rewrite <- IH. split; [intros [= H]; exact H | intros ->; reflexivity].
  - split; [|discriminate]. intros H.
    pose proof (filter_length keep r) as L. rewrite H in L.
    cbn [String.length] in L. lia.
Qed.

(** X13.  The sanitizer works character by character: the sanitized form
    of a concatenation is the concatenation of the sanitized forms, the
    result is never longer than the name, and a name comes back unchanged
    exactly when it holds no forbidden character. *)
Theorem clean_filename_pieces (a b : string) :
  clean_filename (a +:+ b) = clean_filename a +:+ clean_filename b /\
  (String.length (clean_filename a) <= String.length a)%nat /\
  (clean_filename a = a <->
   Text.all (fun c => negb (forbidden c)) a = true).
Proof.
  rewrite !clean_filename_filter. split; [apply filter_app|].
  split; [apply filter_length | apply filter_same].
Qed.

End Shapes.

(** ** Which conversations share a file *)

Section Sharing.

Variable cfg : Config.

Lemma split_first (sep : ascii) (a a' r r' : string) :
  Text.all (fun c => negb (Ascii.eqb c sep)) a = true ->
  Text.all (fun c => negb (Ascii.eqb c sep)) a' = true ->
  a +:+ String sep r = a' +:+ String sep r' -> a = a' /\ r = r'.
Proof.
  revert a'. induction a as [|c a IH]; intros [|c' a'] Ha Ha';
    rewrite ?app_cons, ?app_nil_l; cbn [Text.all] in *.
  - intros [= ->]. split; reflexivity.
  - intros [= <- _]. rewrite Ascii.eqb_refl in Ha'. discriminate.
  - intros [= -> _]. rewrite Ascii.eqb_refl in Ha. discriminate.
  - apply andb_true_iff in Ha as [_ Ha]. apply andb_true_iff in Ha' as [_ Ha'].
    intros [= -> H]. destruct (IH a' Ha Ha' H) as [-> ->]. split; reflexivity.
Qed.

Lemma sep_occurs (sep : ascii) (a b : string) :
  Text.all (fun c => negb (Ascii.eqb c sep)) (a +:+ String sep b) = false.
Proof.
  rewrite all_app. cbn [Text.all]. rewrite Ascii.eqb_refl.
  apply andb_false_r.
Qed.

Lemma split_last (sep : ascii) (a a' b b' : string) :
  Text.all (fun c => negb (Ascii.eqb c sep)) b = true ->
  Text.all (fun c => negb (Ascii.eqb c sep)) b' = true ->
  a +:+ String sep b = a' +:+ String sep b' -> a = a' /\ b = b'.
Proof.
  intros Hb Hb'. revert a'. induction a as [|c a IH]; intros [|c' a'];
    rewrite ?app_cons, ?app_nil_l.
  - intros [= ->]. split; reflexivity.
  - intros [= <- H]. rewrite H, sep_occurs in Hb. discriminate.
  - intros [= -> H]. rewrite <- H, sep_occurs in Hb'. discriminate.
  - intros [= -> H]. destruct (IH a' H) as [-> ->]. split; reflexivity.
Qed.

Lemma uint_no_dash (d : Decimal.uint) :
  no_dash (DecimalString.NilEmpty.string_of_uint d) = true.
Proof. induction d; cbn; auto. Qed.

Lemma str_no_dash (n : Z) : 0 <= n -> no_dash (Text.str n) = true.
Proof.
  intros Hn. unfold Text.str. destruct n as [|p|p]; [reflexivity| |lia].
  cbn [Z.to_int DecimalString.NilZero.string_of_int].
  unfold DecimalString.NilZero.string_of_uint.
  destruct (Pos.to_uint p) eqn:E; try (rewrite <- E; apply uint_no_dash).
  reflexivity.
Qed.

Lemma str_inj (a b : Z) : Text.str a = Text.str b -> a = b.
Proof.
  unfold Text.str. intros H. apply DecimalZ.to_int_inj.
  assert (Hnn : forall n, Z.to_int n <> Decimal.Pos Decimal.Nil /\
                          Z.to_int n <> Decimal.Neg Decimal.Nil).
  { intros [|p|p]; cbn [Z.to_int]; split; try discriminate;
      intros [= E]; exact (DecimalPos.Unsigned.to_uint_nonnil p E). }
  apply (f_equal DecimalString.NilZero.int_of_string) in H.
  rewrite !DecimalString.NilZero.isi in H by apply Hnn.
  congruence.
Qed.

Lemma str_no_slash (n : Z) : no_slash (Text.str n) = true.
Proof. apply decimal_no_slash, str_decimal. Qed.

Lemma dashed_no_slash (name : string) (n : Z) :
  no_slash (clean_filename name +:+ String "-" (Text.str n)) = true.
Proof.
  pose proof (clean_filename_no_slash name) as H1.
  pose proof (str_no_slash n) as H2.
  unfold no_slash in *. rewrite all_app. cbn [Text.all].
  rewrite H1, H2. reflexivity.
Qed.

Lemma dashed_inj (name name' : string) (n n' : Z) :
  0 <= n -> 0 <= n' ->
  clean_filename name +:+ String "-" (Text.str n) =
  clean_filename name' +:+ String "-" (Text.str n') ->
  clean_filename name = clean_filename name' /\ n = n'.
Proof.
  intros Hn Hn' H.
  apply split_last in H as [H1 H2];
    [| apply str_no_dash, Hn | apply str_no_dash, Hn'].
  split; [exact H1 | apply str_inj, H2].
Qed.

(** X14.  Two messages of guild channels are routed to the same file only
    if they have the same guild id, the same channel id and the same date
    (ids being non-negative): no two channels share a log, whatever the
    guilds and channels are called. *)
Theorem guild_channels_keep_apart (m m' : Message) (g g' : Guild)
    (name name' : string) (cid cid' : Z) :
  channel m = TextChannel g name cid ->
  channel m' = TextChannel g' name' cid' ->
  0 <= guild_id g -> 0 <= guild_id g' -> 0 <= cid -> 0 <= cid' ->
  make_filename cfg m = make_filename cfg m' ->
  guild_id g = guild_id g' /\ cid = cid' /\
  ymd (effective_time m) = ymd (effective_time m').
Proof.
  intros Hc Hc' Hg Hg' Hi Hi'. rewrite !make_filename_total, Hc, Hc'.
  intros H.
  assert (Hp : guild_path cfg g name cid (ymd (effective_time m)) =
               guild_path cfg g' name' cid' (ymd (effective_time m')))
    by congruence.
  clear H. unfold guild_path in Hp.
  apply String.app_inj in Hp. apply String.app_inj in Hp.
  replace (clean_filename (guild_name g) +:+ "-" +:+ Text.str (guild_id g)
             +:+ "/#" +:+ clean_filename name +:+ "-" +:+ Text.str cid +:+ "/"
             +:+ ymd (effective_time m) +:+ ".log")
    with ((clean_filename (guild_name g) +:+ String "-" (Text.str (guild_id g)))
            +:+ String "/" ("#" +:+
                (clean_filename name +:+ String "-" (Text.str cid))
            +:+ String "/" (ymd (effective_time m) +:+ ".log")))
    in Hp by (rewrite ?app_assoc; reflexivity).
  replace (clean_filename (guild_name g') +:+ "-" +:+ Text.str (guild_id g')
             +:+ "/#" +:+ clean_filename name' +:+ "-" +:+ Text.str cid' +:+ "/"
             +:+ ymd (effective_time m') +:+ ".log")
    with ((clean_filename (guild_name g') +:+ String "-" (Text.str (guild_id g')))
            +:+ String "/" ("#" +:+
                (clean_filename name' +:+ String "-" (Text.str cid'))
            +:+ String "/" (ymd (effective_time m') +:+ ".log")))
    in Hp by (rewrite ?app_assoc; reflexivity).
  apply (split_first "/") in Hp as [Hguild Hp]; try apply dashed_no_slash.
  apply String.app_inj in Hp.
  apply (split_first "/") in Hp as [Hchan Hday]; try apply dashed_no_slash.
  apply dashed_inj in Hguild as [_ Hguild]; [|assumption..].
  apply dashed_inj in Hchan as [_ Hchan]; [|assumption..].
  repeat split; try assumption.
  assert (Hlen : String.length (ymd (effective_time m)) =
                 String.length (ymd (effective_time m'))).
  { apply (f_equal String.length) in Hday. rewrite !app_length in Hday.
    cbn [String.length] in Hday. lia. }
  apply (app_inv_length _ _ _ _ Hlen Hday).
Qed.

(** X15.  A guild channel never shares its file with a direct or group
    conversation. *)
Theorem guild_and_direct_logs_apart (m m' : Message) (g : Guild)
    (name : string) (cid : Z) :
  channel m = TextChannel g name cid ->
  (exists r n, channel m' = DMChannel r n) \/
  (exists name' n, channel m' = GroupChannel name' n) ->
  make_filename cfg m <> make_filename cfg m'.
Proof.
  intros Hc Hd H. rewrite !make_filename_total, Hc in H.
  assert (exists who n date,
             guild_path cfg g name cid (ymd (effective_time m)) =
             dm_path cfg who n date) as (who & n & date & Hp).
  { destruct Hd as [(r & n & Hd) | (name' & n & Hd)]; rewrite Hd in H;
      cbv beta iota in H; eexists _, _, _;
      injection H as H; exact H. }
  clear H. unfold guild_path, dm_path in Hp.
  apply String.app_inj in Hp.
  assert (Hq : clean_filename (guild_name g) +:+ "-" +:+ Text.str (guild_id g)
                 +:+ "/#" +:+ clean_filename name +:+ "-" +:+ Text.str cid
                 +:+ "/" +:+ ymd (effective_time m) +:+ ".log" =
               "DM/" +:+ clean_filename who +:+ "-" +:+ Text.str n +:+ "/"
                 +:+ date +:+ ".log").
  { apply (String.app_inj "/"). exact Hp. }
  clear Hp.
  replace (clean_filename (guild_name g) +:+ "-" +:+ Text.str (guild_id g)
             +:+ "/#" +:+ clean_filename name +:+ "-" +:+ Text.str cid +:+ "/"
             +:+ ymd (effective_time m) +:+ ".log")
    with ((clean_filename (guild_name g) +:+ String "-" (Text.str (guild_id g)))
            +:+ String "/" ("#" +:+ clean_filename name +:+ "-"
            +:+ Text.str cid +:+ "/" +:+ ymd (effective_time m) +:+ ".log"))
    in Hq by (rewrite ?app_assoc; reflexivity).
  change ("DM/" +:+ clean_filename who +:+ "-" +:+ Text.str n +:+ "/" +:+ date
            +:+ ".log")
    with ("DM" +:+ String "/" (clean_filename who +:+ "-" +:+ Text.str n
            +:+ "/" +:+ date +:+ ".log")) in Hq.
  apply (split_first "/") in Hq as [Hq _];
    [| apply dashed_no_slash | reflexivity].
  apply (f_equal no_dash) in Hq. unfold no_dash in Hq.
  rewrite sep_occurs in Hq. discriminate.
Qed.

End Sharing.

(** ** Appends to different files *)

Section Order.

Variable cfg : Config.






End Order.

Section After.

Variable cfg : Config.




End After.

(** ** Start-up *)

(** X17.  A configuration module without [IGNORE_SERVERS] is accepted: the
    import of that name never makes the start-up fail, the ignore list is
    then empty, and no guild is ignored. *)
Theorem missing_ignore_list (config : ConfigModule) :
  config_IGNORE_SERVERS config = None ->
  match import_config config with
  | inr globals =>
      IGNORE_SERVERS (settings globals) = [] /\
      forall g, ignored (settings globals) g = false
  | inl (cannot_import_name name) =>
      In name ["TOKEN"; "COMMAND_PREFIX"; "USE_LOCALTIME"; "LOG_DIR";
               "MAX_MESSAGES"; "AWAY_STATUS"]
  end.
Proof.
  intros H. unfold import_config. rewrite H.
  destruct (config_TOKEN config); cbn; [|tauto].
  destruct (config_COMMAND_PREFIX config); cbn; [|tauto].
  destruct (config_USE_LOCALTIME config); cbn; [|tauto].
  destruct (config_LOG_DIR config); cbn; [|tauto].
  destruct (config_MAX_MESSAGES config); cbn; [|tauto].
  destruct (config_AWAY_STATUS config); cbn; [|tauto].
  split; [reflexivity|]. intros [g|]; reflexivity.
Qed.

(** ** File names and dates *)

Section Dates.










End Dates.

(** ** Instances *)

Lemma routed_path_directory_witness :
  make_filename Sample.utc_cfg Sample.hello = Ok (Some Cases.hello_path) /\
  exists d,
    conversation_dir Sample.utc_cfg Sample.hello = Some d /\
    Cases.hello_path = d +:+ "/" +:+ day_file Sample.hello /\
    no_slash (day_file Sample.hello) = true /\
    dirname Cases.hello_path = d /\
    d <> EmptyString.
Proof.
  split; [vm_compute; reflexivity|].
  apply (routed_path_directory Sample.utc_cfg Sample.hello Cases.hello_path).
  vm_compute. reflexivity.
Defined.

Lemma routed_path_depth_witness :
  make_filename Sample.utc_cfg Sample.hello = Ok (Some Cases.hello_path) /\
  count_slash Cases.hello_path = (count_slash (LOG_DIR Sample.utc_cfg) + 3)%nat /\
  count_slash (dirname Cases.hello_path) =
    (count_slash (LOG_DIR Sample.utc_cfg) + 2)%nat.
Proof.
  split; [vm_compute; reflexivity|].
  apply (routed_path_depth Sample.utc_cfg Sample.hello Cases.hello_path).
  vm_compute. reflexivity.
Defined.

Lemma handle_message_touches_routed_file_witness :
  make_filename Sample.utc_cfg Sample.hello <> Ok (Some Cases.alice_path) /\
  files (snd (handle_message Sample.utc_cfg Sample.env Sample.hello
                Sample.empty_disk)) !! Cases.alice_path =
  files Sample.empty_disk !! Cases.alice_path.
Proof.
  assert (H : make_filename Sample.utc_cfg Sample.hello <>
              Ok (Some Cases.alice_path)) by (vm_compute; discriminate).
  split; [exact H|].
  exact (handle_message_touches_routed_file Sample.utc_cfg Sample.env
           Sample.hello Sample.empty_disk Cases.alice_path H).
Defined.

Lemma handle_message_failure_writes_nothing_witness :
  fst (handle_message Sample.utc_cfg Sample.env Sample.voice Sample.empty_disk)
    = Raise TypeError /\
  files (snd (handle_message Sample.utc_cfg Sample.env Sample.voice
                Sample.empty_disk)) = files Sample.empty_disk.
Proof.
  assert (H : fst (handle_message Sample.utc_cfg Sample.env Sample.voice
                     Sample.empty_disk) = Raise TypeError)
    by (vm_compute; reflexivity).
  split; [exact H|].
  exact (handle_message_failure_writes_nothing Sample.utc_cfg Sample.env
           Sample.voice Sample.empty_disk TypeError H).
Defined.



Lemma write_without_directory_witness :
  no_slash "today.log" = true /\
  write Sample.utc_cfg Sample.env (Some "today.log") "entry" Sample.empty_disk =
    (Raise FileNotFoundError, Sample.empty_disk).
Proof.
  split; [reflexivity|].
  apply (write_without_directory Sample.utc_cfg Sample.env "today.log" "entry"
           Sample.empty_disk).
  reflexivity.
Defined.

Lemma id_overflow_not_logged_witness :
  ~ 0 <= id Cases.huge < 2 ^ 64 /\
  make_message Sample.utc_cfg Sample.env Cases.huge = Raise OverflowError /\
  (ignored Sample.utc_cfg (guild Cases.huge) = false ->
   handle_message Sample.utc_cfg Sample.env Cases.huge Sample.empty_disk =
   (Raise OverflowError, Sample.empty_disk)) /\
  (ignored Sample.utc_cfg (guild Cases.huge) = true ->
   handle_message Sample.utc_cfg Sample.env Cases.huge Sample.empty_disk =
   (Ok tt, Sample.empty_disk)).
Proof.
  assert (H : ~ 0 <= id Cases.huge < 2 ^ 64) by (cbn [id Cases.huge]; lia).
  split; [exact H|].
  exact (id_overflow_not_logged Sample.utc_cfg Sample.env Cases.huge
           Sample.empty_disk H).
Defined.

Lemma line_determines_id_witness :
  make_message Sample.utc_cfg Sample.env Sample.hello =
    Ok "[FYHpffQQIhE=] [10:00:00] <alice#0001> hello world " /\
  make_message Sample.utc_cfg Sample.env Sample.dm_received =
    Ok "[FYHpffQQIhE=] [10:00:00] <alice#0001> hello world " /\
  id Sample.hello = id Sample.dm_received /\
  (edited_at Sample.hello = None <-> edited_at Sample.dm_received = None).
Proof.
  assert (H1 : make_message Sample.utc_cfg Sample.env Sample.hello =
               Ok "[FYHpffQQIhE=] [10:00:00] <alice#0001> hello world ")
    by (vm_compute; reflexivity).
  assert (H2 : make_message Sample.utc_cfg Sample.env Sample.dm_received =
               Ok "[FYHpffQQIhE=] [10:00:00] <alice#0001> hello world ")
    by (vm_compute; reflexivity).
  split; [exact H1|]. split; [exact H2|].
  exact (line_determines_id Sample.utc_cfg Sample.env Sample.utc_cfg Sample.env
           Sample.hello Sample.dm_received _ H1 H2).
Defined.

Lemma token_symbols_witness :
  encode_id 1234567890123456789 = Ok "FYHpffQQIhE=" /\
  String.length "FYHpffQQIhE=" = 12%nat /\
  Text.all b64_symbol "FYHpffQQIhE=" = true /\
  Text.all (fun c => negb (Ascii.eqb c "]") && negb (Ascii.eqb c " ")
                     && negb (Ascii.eqb c "010")) "FYHpffQQIhE=" = true.
Proof.
  assert (H : encode_id 1234567890123456789 = Ok "FYHpffQQIhE=")
    by (vm_compute; reflexivity).
  split; [exact H|].
  exact (token_symbols 1234567890123456789 "FYHpffQQIhE=" H).
Defined.

Lemma entry_continuations_marked_witness :
  0 <= id Sample.edited < 2 ^ 64 /\
  no_newline (user_name (author Sample.edited)) = true /\
  no_newline (discriminator (author Sample.edited)) = true /\
  Forall (fun a => no_newline (url a) = true) (attachments Sample.edited) /\
  exists line,
    make_message Sample.utc_cfg Sample.env Sample.edited = Ok line /\
    continuation_marked line = true.
Proof.
  assert (H1 : 0 <= id Sample.edited < 2 ^ 64)
    by (apply in_range_64_spec; vm_compute; reflexivity).
  assert (H4 : Forall (fun a => no_newline (url a) = true)
                 (attachments Sample.edited)).
  { apply List.Forall_cons; [reflexivity|].
    apply List.Forall_cons; [reflexivity | apply List.Forall_nil]. }
  split; [exact H1|]. split; [reflexivity|]. split; [reflexivity|].
  split; [exact H4|].
  exact (entry_continuations_marked Sample.utc_cfg Sample.env Sample.edited
           H1 eq_refl eq_refl H4).
Defined.

Lemma guild_channels_keep_apart_witness :
  channel Sample.hello = TextChannel Sample.test_guild "general" 2 /\
  channel Sample.edited = TextChannel Sample.test_guild "general" 2 /\
  0 <= guild_id Sample.test_guild /\ 0 <= 2 /\
  make_filename Sample.utc_cfg Sample.hello =
    make_filename Sample.utc_cfg Sample.edited /\
  guild_id Sample.test_guild = guild_id Sample.test_guild /\ 2 = 2 /\
  ymd (effective_time Sample.hello) = ymd (effective_time Sample.edited).
Proof.
  assert (Hg : 0 <= guild_id Sample.test_guild) by (cbn; lia).
  assert (Hc : 0 <= 2) by lia.
  assert (Hp : make_filename Sample.utc_cfg Sample.hello =
               make_filename Sample.utc_cfg Sample.edited)
    by (vm_compute; reflexivity).
  split; [reflexivity|]. split; [reflexivity|]. split; [exact Hg|].
  split; [exact Hc|]. split; [exact Hp|].
  exact (guild_channels_keep_apart Sample.utc_cfg Sample.hello Sample.edited
           Sample.test_guild Sample.test_guild "general" "general" 2 2
           eq_refl eq_refl Hg Hg Hc Hc Hp).
Defined.

Lemma guild_and_direct_logs_apart_witness :
  channel Sample.hello = TextChannel Sample.test_guild "general" 2 /\
  ((exists r n, channel Sample.dm_received = DMChannel r n) \/
   (exists name' n, channel Sample.dm_received = GroupChannel name' n)) /\
  make_filename Sample.utc_cfg Sample.hello <>
    make_filename Sample.utc_cfg Sample.dm_received.
Proof.
  assert (H : (exists r n, channel Sample.dm_received = DMChannel r n) \/
              (exists name' n, channel Sample.dm_received = GroupChannel name' n))
    by (left; exists Sample.alice, 3; reflexivity).
  split; [reflexivity|]. split; [exact H|].
  exact (guild_and_direct_logs_apart Sample.utc_cfg Sample.hello
           Sample.dm_received Sample.test_guild "general" 2 eq_refl H).
Defined.


Lemma missing_ignore_list_witness :
  config_IGNORE_SERVERS Cases.old_config = None /\
  match import_config Cases.old_config with
  | inr globals =>
      IGNORE_SERVERS (settings globals) = [] /\
      forall g, ignored (settings globals) g = false
  | inl (cannot_import_name name) =>
      In name ["TOKEN"; "COMMAND_PREFIX"; "USE_LOCALTIME"; "LOG_DIR";
               "MAX_MESSAGES"; "AWAY_STATUS"]
  end.
Proof.
  split; [reflexivity|].
  apply (missing_ignore_list Cases.old_config). reflexivity.
Defined.



(** The edit of the scenario's message, cached, delivered as a direct and
    as a raw edit event on an empty disk: one entry after the marker. *)
Lemma edit_logged_once_witness :
  let bot := Sample.caching Sample.edited in
  let direct := dispatch Sample.utc_cfg Sample.env bot
                  (MessageEditEvent Sample.hello Sample.edited) in
  let raw := dispatch Sample.utc_cfg Sample.env bot
               (RawMessageEditEvent Sample.raw_edit) in
  (message_id Sample.raw_edit = id Sample.edited /\
   _get_message bot (id Sample.edited) <> None /\
   supported (channel Sample.edited) = true /\
   ignored Sample.utc_cfg (guild Sample.edited) = false /\
   0 <= id Sample.edited < 2 ^ 64 /\
   make_filename Sample.utc_cfg Sample.edited = Ok (Some Cases.hello_path) /\
   takes Cases.hello_path Sample.empty_disk = true) /\
  (exists p,
    make_filename Sample.utc_cfg Sample.edited = Ok (Some p) /\
    let logged := after_append Sample.utc_cfg Sample.env p
                    (entry_of Sample.utc_cfg Sample.env Sample.edited)
                    Sample.empty_disk in
    direct Sample.empty_disk = ([Ok tt; Ok tt], logged) /\
    raw (snd (direct Sample.empty_disk)) = ([Ok tt], logged) /\
    raw Sample.empty_disk = ([Ok tt], Sample.empty_disk) /\
    direct (snd (raw Sample.empty_disk)) = ([Ok tt; Ok tt], logged) /\
    files logged !! p =
      Some (appended Sample.utc_cfg Sample.env
              (files Sample.empty_disk !! p)
              (entry_of Sample.utc_cfg Sample.env Sample.edited)) /\
    (forall q, q <> p -> files logged !! q = files Sample.empty_disk !! q)) /\
  files (snd (raw (snd (direct Sample.empty_disk)))) !! Cases.hello_path =
    Some Cases.edited_text /\
  files (snd (direct (snd (raw Sample.empty_disk)))) !! Cases.hello_path =
    Some Cases.edited_text.
Proof.
  cbv zeta.
  assert (Hcache : _get_message (Sample.caching Sample.edited)
                     (id Sample.edited) <> None)
    by (vm_compute; discriminate).
  assert (Hid : 0 <= id Sample.edited < 2 ^ 64)
    by (apply in_range_64_spec; vm_compute; reflexivity).
  assert (Hp : make_filename Sample.utc_cfg Sample.edited =
               Ok (Some Cases.hello_path)) by (vm_compute; reflexivity).
  assert (Ht : takes Cases.hello_path Sample.empty_disk = true)
    by (vm_compute; reflexivity).
  assert (Hall : forall p, make_filename Sample.utc_cfg Sample.edited =
                           Ok (Some p) -> takes p Sample.empty_disk = true).
  { intros p Hq. rewrite Hp in Hq.
    assert (E : Cases.hello_path = p) by congruence.
    rewrite <- E. exact Ht. }
  split; [repeat split; try assumption; try reflexivity; apply Hid|].
  split.
  - exact (edit_logged_once Sample.utc_cfg (Sample.caching Sample.edited)
             Sample.env Sample.env Sample.hello Sample.edited Sample.raw_edit
             Sample.empty_disk eq_refl Hcache eq_refl eq_refl Hid Hall).
  - split; vm_compute; reflexivity.
Defined.

(** The raw edit event of the scenario's message, uncached and gone from
    the platform when the handler fetches it. *)
Lemma raw_edit_failed_fetch_raises_witness :
  let ch := TextChannel Sample.test_guild "general" 2 in
  (_get_message Cases.deleted (message_id Sample.raw_edit) = None /\
   get_channel Cases.deleted (channel_id Sample.raw_edit) = Some ch /\
   channel_guild_attribute ch = Ok (Some Sample.test_guild) /\
   ignored Sample.utc_cfg (Some Sample.test_guild) = false /\
   get_message Cases.deleted ch (message_id Sample.raw_edit) = Raise NotFound) /\
  on_raw_message_edit Sample.utc_cfg Sample.env Cases.deleted Sample.raw_edit
    Sample.empty_disk = (Raise NotFound, Sample.empty_disk) /\
  dispatch Sample.utc_cfg Sample.env Cases.deleted
    (RawMessageEditEvent Sample.raw_edit) Sample.empty_disk =
    ([Raise NotFound], Sample.empty_disk).
Proof.
  cbv zeta. split; [repeat split; reflexivity|].
  exact (raw_edit_failed_fetch_raises Sample.utc_cfg Cases.deleted Sample.env
           Sample.raw_edit (TextChannel Sample.test_guild "general" 2)
           (Some Sample.test_guild) NotFound Sample.empty_disk
           eq_refl eq_refl eq_refl eq_refl eq_refl).
Defined.

(** The other inputs of a raw edit event: an unresolved channel is dropped
    in silence, and a private channel stops the handler at line 195. *)
Example raw_edit_other_inputs :
  on_raw_message_edit Sample.utc_cfg Sample.env Sample.blind Sample.raw_edit
    Sample.empty_disk = (Ok tt, Sample.empty_disk) /\
  on_raw_message_edit Sample.utc_cfg Sample.env
    (Sample.uncached Sample.dm_received) Sample.raw_edit Sample.empty_disk =
    (Raise AttributeError, Sample.empty_disk).
Proof. split; vm_compute; reflexivity. Qed.

(** The direct message of alice on an empty disk, under the ignore list of
    the sample configuration and under two others. *)
Lemma no_guild_never_suppressed_witness :
  (guild Sample.dm_received = None /\
   supported (channel Sample.dm_received) = true /\
   0 <= id Sample.dm_received < 2 ^ 64 /\
   make_filename Sample.utc_cfg Sample.dm_received =
     Ok (Some Cases.alice_path) /\
   takes Cases.alice_path Sample.empty_disk = true) /\
  (exists p,
    make_filename Sample.utc_cfg Sample.dm_received = Ok (Some p) /\
    make_message Sample.utc_cfg Sample.env Sample.dm_received =
      Ok (entry_of Sample.utc_cfg Sample.env Sample.dm_received) /\
    let logged := after_append Sample.utc_cfg Sample.env p
                    (entry_of Sample.utc_cfg Sample.env Sample.dm_received)
                    Sample.empty_disk in
    (forall ignore_list before,
        let cfg' := {| LOG_DIR := LOG_DIR Sample.utc_cfg;
                       USE_LOCALTIME := USE_LOCALTIME Sample.utc_cfg;
                       IGNORE_SERVERS := ignore_list |} in
        handle_message cfg' Sample.env Sample.dm_received Sample.empty_disk =
          (Ok tt, logged) /\
        dispatch cfg' Sample.env Sample.blind
          (MessageEvent Sample.dm_received) Sample.empty_disk =
          ([Ok tt], logged) /\
        dispatch cfg' Sample.env Sample.blind
          (MessageEditEvent before Sample.dm_received) Sample.empty_disk =
          ([Ok tt; Ok tt], logged)) /\
    files logged !! p =
      Some (appended Sample.utc_cfg Sample.env
              (files Sample.empty_disk !! p)
              (entry_of Sample.utc_cfg Sample.env Sample.dm_received))) /\
  (forall ignore_list,
      In ignore_list [[]; [7]; [3; 5; 7]] ->
      files (snd (handle_message {| LOG_DIR := "logs"; USE_LOCALTIME := false;
                                    IGNORE_SERVERS := ignore_list |}
                    Sample.env Sample.dm_received Sample.empty_disk))
        !! Cases.alice_path = Some Cases.alice_text).
Proof.
  assert (Hid : 0 <= id Sample.dm_received < 2 ^ 64)
    by (apply in_range_64_spec; vm_compute; reflexivity).
  assert (Hp : make_filename Sample.utc_cfg Sample.dm_received =
               Ok (Some Cases.alice_path)) by (vm_compute; reflexivity).
  assert (Ht : takes Cases.alice_path Sample.empty_disk = true)
    by (vm_compute; reflexivity).
  assert (Hall : forall p, make_filename Sample.utc_cfg Sample.dm_received =
                           Ok (Some p) -> takes p Sample.empty_disk = true).
  { intros p Hq. rewrite Hp in Hq.
    assert (E : Cases.alice_path = p) by congruence.
    rewrite <- E. exact Ht. }
  split; [repeat split; try assumption; try reflexivity; apply Hid|].
  split.
  - exact (no_guild_never_suppressed Sample.utc_cfg Sample.blind Sample.env
             Sample.dm_received Sample.empty_disk eq_refl eq_refl Hid Hall).
  - intros l [<-|[<-|[<-|[]]]]; vm_compute; reflexivity.
Defined.

